(** * UEAgentForge Python client: a shallow embedding and its properties

    The development follows [PythonClient/ueagentforge_client.py]:
    the Python values that travel through the client, the [ForgeResult]
    model, the transport ([AgentForgeClient._send]) run against an explicit
    request log, the typed operation surface, and the transaction context
    manager.  Library code the client calls (the [json] module, [str()], the
    [requests] session and its exception classes, the [with] statement) is
    either taken as an interface or written down from its documented
    behaviour, and marked as such. *)

From Stdlib Require Import ZArith String List Bool Lia.
From Stdlib Require Import Floats.SpecFloat.
From Stdlib Require Import DecimalString Ascii.
From stdpp Require Import base option list gmap strings.

Set Warnings "-register-all".
Local Open Scope string_scope.

(* ------------------------------------------------------------------ *)
(** ** Python values *)

(** The values [json.loads] / [resp.json()] can produce and that callers
    pass as arguments: [None], [bool], [int], [float], [str], [list] and
    [dict] with string keys.  A [dict] is a finite map: Python compares
    dicts without regard to insertion order. *)
Inductive pyval : Type :=
| PNone
| PBool (b : bool)
| PInt (z : Z)
| PFloat (f : spec_float)
| PStr (s : string)
| PList (l : list pyval)
| PDict (d : gmap string pyval).

(** [bool(v)]: Python truth value testing. *)
Definition truthy (v : pyval) : bool :=
  match v with
  | PNone => false
  | PBool b => b
  | PInt z => negb (z =? 0)%Z
  | PFloat (S754_zero _) => false
  | PFloat _ => true
  | PStr s => negb (String.length s =? 0)%nat
  | PList l => negb (length l =? 0)%nat
  | PDict d => negb (size d =? 0)%nat
  end.

(** [a or b] *)
Definition py_or (a b : pyval) : pyval := if truthy a then a else b.

(** [a and b] *)
Definition py_and (a b : pyval) : pyval := if truthy a then b else a.

(** [v is None] *)
Definition is_None (v : pyval) : bool :=
  match v with PNone => true | _ => false end.

(** A dict display [{k1: v1, ..., kn: vn}]: later keys overwrite earlier
    ones. *)
Definition mkdict (kvs : list (string * pyval)) : gmap string pyval :=
  fold_left (fun d kv => <[kv.1 := kv.2]> d) kvs ∅.

(* ------------------------------------------------------------------ *)
(** ** Exceptions *)

(** The exception classes of [requests.exceptions] a session call can raise.
    This is the library's class hierarchy (not part of the repository):
    [ProxyError], [SSLError] and [ConnectTimeout] derive from
    [ConnectionError]; [ConnectTimeout] and [ReadTimeout] derive from
    [Timeout]; [HTTPError] and [JSONDecodeError] derive from
    [RequestException] only. *)
Inductive requests_exception : Type :=
| ConnectionError
| ProxyError
| SSLError
| ConnectTimeout
| ReadTimeout
| HTTPError (status : Z)
| JSONDecodeError
| RequestException.

(** [isinstance(e, requests.exceptions.ConnectionError)] *)
Definition isinstance_ConnectionError (e : requests_exception) : bool :=
  match e with
  | ConnectionError | ProxyError | SSLError | ConnectTimeout => true
  | _ => false
  end.

(** [isinstance(e, requests.exceptions.Timeout)] *)
Definition isinstance_Timeout (e : requests_exception) : bool :=
  match e with
  | ConnectTimeout | ReadTimeout => true
  | _ => false
  end.

(** What can propagate out of client code. [Exception] stands for whatever
    caller code raises inside a [with] body; [RecursionError] and
    [ValueError] are what a JSON decoder lets out besides its own
    [JSONDecodeError]. *)
Inductive exn : Type :=
| RuntimeError (msg : string)
| PermissionError (msg : string)
| AttributeError (msg : string)
| Requests (e : requests_exception)
| Exception (msg : string)
| RecursionError (msg : string)
| ValueError (msg : string).

Inductive result (A : Type) : Type :=
| Ok (a : A)
| Raise (e : exn).
Arguments Ok {A} a.
Arguments Raise {A} e.

(** The ways [json.loads] fails other than by [json.JSONDecodeError]:
    text nested deeper than the interpreter's recursion limit
    ([RecursionError]), and an integer literal longer than the
    interpreter's digit limit ([ValueError]). *)
Inductive decoder_error : Type :=
| TooDeep
| TooManyDigits.

(** The exception each one is. *)
Definition decoder_exn (e : decoder_error) : exn :=
  match e with
  | TooDeep => RecursionError "maximum recursion depth exceeded"
  | TooManyDigits =>
    ValueError "Exceeds the limit for integer string conversion"
  end.

(** What a call of the JSON decoder on a text comes to: the decoded value,
    [json.JSONDecodeError], or one of the other exceptions. *)
Inductive loads_outcome : Type :=
| Decoded (v : pyval)
| NotJSON
| DecoderRaises (e : decoder_error).

(** [v.get(key, default)]; only a dict has [get]. *)
Definition py_get (v : pyval) (key : string) (dflt : pyval) : result pyval :=
  match v with
  | PDict d => Ok (default dflt (d !! key))
  | _ => Raise (AttributeError "object has no attribute 'get'")
  end.

(* ------------------------------------------------------------------ *)
(** ** Data types *)

(** [ForgeResult]: the dataclass fields.  [ok] and [error] hold whatever
    [from_response] computes, which need not be a [bool] / [str]. *)
Record ForgeResult : Type := mkForgeResult {
  raw : pyval;
  ok : pyval;
  error : pyval;
}.

(** [ForgeResult.from_response] *)
Definition from_response (data : pyval) : result ForgeResult :=
  match py_get data "error" PNone with
  | Raise e => Raise e
  | Ok error =>
    match (if is_None error then py_get data "ok" (PBool true)
           else Ok (PBool false)) with
    | Raise e => Raise e
    | Ok ok => Ok {| raw := data; ok := ok; error := error |}
    end
  end.

(** [VerificationReport] *)
Record VerificationReport : Type := mkVerificationReport {
  all_passed : pyval;
  phases_run : pyval;
  details : pyval;
}.

(* ------------------------------------------------------------------ *)
(** ** Configuration *)

Definition DEFAULT_HOST : string := "127.0.0.1".
Definition DEFAULT_PORT : Z := 30010.
Definition OBJECT_PATH : string :=
  "/Script/UEAgentForge.Default__AgentForgeLibrary".
Definition FUNCTION : string := "ExecuteCommandJson".

(** [30.0], the default timeout in seconds: 15 * 2^1. *)
Definition DEFAULT_TIMEOUT : spec_float := S754_finite false 15 1.

(** [f"{n}"] for an [int]. *)
Definition format_int (n : Z) : string := NilZero.string_of_int (Z.to_int n).

(* ------------------------------------------------------------------ *)
(** ** The transport and the monad of client code *)

(** One [session.put(url, json=..., timeout=...)] call as it reaches the
    wire.  The session's headers are fixed by [__init__]. *)
Record request : Type := mkRequest {
  req_url : string;
  req_json : pyval;
  req_timeout : spec_float;
}.

(** What the client reads of a [requests.Response]: the status code, and
    what [resp.json()] comes to on its body. *)
Record response : Type := mkResponse {
  status_code : Z;
  json : loads_outcome;
}.

(** A [put] either raises inside [requests] or returns a response. *)
Inductive put_result : Type :=
| PutRaises (e : requests_exception)
| PutReturns (r : response).

(** Client code runs against the log of the requests issued so far (oldest
    first) and either returns or raises. *)
Definition M (A : Type) : Type := list request -> result A * list request.

Definition ret {A} (a : A) : M A := fun h => (Ok a, h).

Definition raise {A} (e : exn) : M A := fun h => (Raise e, h).

Definition bind {A B} (c : M A) (k : A -> M B) : M B :=
  fun h => match c h with
           | (Ok a, h') => k a h'
           | (Raise e, h') => (Raise e, h')
           end.

(** Lift a pure, fallible computation. *)
Definition lift {A} (r : result A) : M A := fun h => (r, h).

(** [try: c  except <classes matched by handles>: handler] *)
Definition try_except {A} (c : M A) (handles : exn -> bool)
    (handler : exn -> M A) : M A :=
  fun h => match c h with
           | (Ok a, h') => (Ok a, h')
           | (Raise e, h') => if handles e then handler e h' else (Raise e, h')
           end.

#[global] Instance M_ret : MRet M := @ret.
#[global] Instance M_bind : MBind M := fun A B k c => bind c k.

(** [except requests.exceptions.ConnectionError] *)
Definition except_ConnectionError (e : exn) : bool :=
  match e with
  | Requests r => isinstance_ConnectionError r
  | _ => false
  end.

(** [resp.raise_for_status()]: [HTTPError] for 4xx and 5xx. *)
Definition raise_for_status (resp : response) : M unit :=
  if ((400 <=? status_code resp) && (status_code resp <? 600))%Z
  then raise (Requests (HTTPError (status_code resp)))
  else ret tt.

(** [resp.json()]: the decoder's [JSONDecodeError] is re-raised as the
    transport's own; its other exceptions pass through. *)
Definition resp_json (resp : response) : M pyval :=
  match json resp with
  | Decoded v => ret v
  | NotJSON => raise (Requests JSONDecodeError)
  | DecoderRaises e => raise (decoder_exn e)
  end.

(** The interpreter's built-ins the client calls: [json.dumps],
    [json.loads] (with each way it can end) and [str()] as used by
    f-strings. *)
Class PyBuiltins : Type := {
  json_dumps : pyval -> string;
  json_loads : string -> loads_outcome;
  py_str : pyval -> string;
}.

(** The remote side: what a [put] yields, given the requests already
    received and the new one. *)
Definition host_model : Type := list request -> request -> put_result.

(** [AgentForgeClient]: the instance attributes set by [__init__]. *)
Record AgentForgeClient : Type := mkClient {
  base_url : string;
  timeout : spec_float;
  verify : bool;
}.

(** [AgentForgeClient.__init__] (the [verbose] flag only configures
    logging). *)
Definition __init__ (host : string) (port : Z) (timeout : spec_float)
    (verify : bool) : AgentForgeClient :=
  {| base_url := "http://" ++ host ++ ":" ++ format_int port
                 ++ "/remote/object/call";
     timeout := timeout;
     verify := verify |}.

Section Client.
Context `{PyBuiltins}.
Variable host : host_model.

(** [self._session.put(url, json=payload, timeout=...)]: the request is
    logged whether or not the call succeeds. *)
Definition session_put (req : request) : M response :=
  fun h => match host h req with
           | PutRaises e => (Raise (Requests e), (h ++ [req])%list)
           | PutReturns r => (Ok r, (h ++ [req])%list)
           end.

(** The dict handed to [json.dumps] in [_send]. *)
Definition command_envelope (cmd : string) (args : pyval) : pyval :=
  PDict (mkdict [("cmd", PStr cmd); ("args", py_or args (PDict ∅))]).

(** The [payload] of [_send]. *)
Definition payload (cmd : string) (args : pyval) : pyval :=
  let request_json := json_dumps (command_envelope cmd args) in
  PDict (mkdict [("objectPath", PStr OBJECT_PATH);
                 ("functionName", PStr FUNCTION);
                 ("parameters",
                  PDict (mkdict [("RequestJson", PStr request_json)]))]).

(** The request [_send] puts on the wire. *)
Definition wire_request (self : AgentForgeClient) (cmd : string)
    (args : pyval) : request :=
  {| req_url := base_url self;
     req_json := payload cmd args;
     req_timeout := timeout self |}.

(** The message of the [RuntimeError] raised by [_send]. *)
Definition cannot_connect (self : AgentForgeClient) : string :=
  "Cannot connect to Unreal Editor at " ++ base_url self ++ ". "
  ++ "Ensure the editor is running with Remote Control API enabled.".

(** [_send], second half: from [body = resp.json()] to the returned
    value.  Only [json.JSONDecodeError] is caught. *)
Definition decode_body (body : pyval) : result pyval :=
  match py_get body "ReturnValue" body with
  | Raise e => Raise e
  | Ok (PStr s) =>
    match json_loads s with
    | Decoded v => Ok v
    | NotJSON => Ok (PDict (mkdict [("raw", PStr s)]))
    | DecoderRaises e => Raise (decoder_exn e)
    end
  | Ok return_val => Ok return_val
  end.

(** [AgentForgeClient._send]; [args] is [PNone] when omitted.  The
    [log.debug] calls have no effect on the result. *)
Definition _send (self : AgentForgeClient) (cmd : string) (args : pyval)
    : M pyval :=
  resp ← try_except
           (resp ← session_put (wire_request self cmd args);
            _ ← raise_for_status resp;
            mret resp)
           except_ConnectionError
           (fun _ => raise (RuntimeError (cannot_connect self)));
  body ← resp_json resp;
  lift (decode_body body).

(** [AgentForgeClient.execute] *)
Definition execute (self : AgentForgeClient) (cmd : string) (args : pyval)
    : M ForgeResult :=
  data ← _send self cmd args;
  lift (from_response data).

(* ---------------------------------------------------------------- *)
(** *** Forge meta *)

(** [ping] *)
Definition ping (self : AgentForgeClient) : M pyval :=
  _send self "ping" PNone.

(** [run_verification] *)
Definition run_verification (self : AgentForgeClient) (phase_mask : Z)
    : M VerificationReport :=
  data ← _send self "run_verification"
           (PDict (mkdict [("phase_mask", PInt phase_mask)]));
  all_passed ← lift (py_get data "all_passed" (PBool false));
  phases_run ← lift (py_get data "phases_run" (PInt 0));
  details ← lift (py_get data "details" (PList []));
  mret {| all_passed := all_passed; phases_run := phases_run;
          details := details |}.

(** [enforce_constitution] *)
Definition enforce_constitution (self : AgentForgeClient)
    (action_description : string) : M pyval :=
  _send self "enforce_constitution"
    (PDict (mkdict [("action_description", PStr action_description)])).

(* ---------------------------------------------------------------- *)
(** *** Actor control *)

(** The argument dict shared by [spawn_actor] and [set_actor_transform]
    after their first key. *)
Definition transform_args (first : string * pyval)
    (x y z pitch yaw roll : pyval) : pyval :=
  PDict (mkdict [first; ("x", x); ("y", y); ("z", z);
                 ("pitch", pitch); ("yaw", yaw); ("roll", roll)]).

(** [spawn_actor] *)
Definition spawn_actor (self : AgentForgeClient) (class_path : string)
    (x y z pitch yaw roll : pyval) : M ForgeResult :=
  _ ← (if verify self then
         chk ← enforce_constitution self ("spawn_actor " ++ class_path);
         allowed ← lift (py_get chk "allowed" (PBool true));
         if negb (truthy allowed) then
           violations ← lift (py_get chk "violations" PNone);
           raise (PermissionError
                    ("Constitution blocked spawn_actor: "
                     ++ py_str violations))
         else mret tt
       else mret tt);
  execute self "spawn_actor"
    (transform_args ("class_path", PStr class_path) x y z pitch yaw roll).

(** [set_actor_transform] *)
Definition set_actor_transform (self : AgentForgeClient)
    (object_path : string) (x y z pitch yaw roll : pyval) : M ForgeResult :=
  execute self "set_actor_transform"
    (transform_args ("object_path", PStr object_path) x y z pitch yaw roll).

(** [delete_actor] *)
Definition delete_actor (self : AgentForgeClient) (label : string)
    : M ForgeResult :=
  execute self "delete_actor" (PDict (mkdict [("label", PStr label)])).

(** [save_current_level] *)
Definition save_current_level (self : AgentForgeClient) : M ForgeResult :=
  execute self "save_current_level" PNone.

(* ---------------------------------------------------------------- *)
(** *** Blueprint manipulation *)

(** [create_blueprint] *)
Definition create_blueprint (self : AgentForgeClient)
    (name parent_class output_path : string) : M ForgeResult :=
  execute self "create_blueprint"
    (PDict (mkdict [("name", PStr name);
                    ("parent_class", PStr parent_class);
                    ("output_path", PStr output_path)])).

(** [compile_blueprint] *)
Definition compile_blueprint (self : AgentForgeClient)
    (blueprint_path : string) : M ForgeResult :=
  execute self "compile_blueprint"
    (PDict (mkdict [("blueprint_path", PStr blueprint_path)])).

(** [set_blueprint_cdo_property] *)
Definition set_blueprint_cdo_property (self : AgentForgeClient)
    (blueprint_path property_name type : string) (value : pyval)
    : M ForgeResult :=
  execute self "set_bp_cdo_property"
    (PDict (mkdict [("blueprint_path", PStr blueprint_path);
                    ("property_name", PStr property_name);
                    ("type", PStr type);
                    ("value", PStr (py_str value))])).

(** [edit_blueprint_node]; [pins] is [PNone] when omitted. *)
Definition edit_blueprint_node (self : AgentForgeClient)
    (blueprint_path node_type node_title : string) (pins : pyval)
    : M ForgeResult :=
  execute self "edit_blueprint_node"
    (PDict (mkdict
       [("blueprint_path", PStr blueprint_path);
        ("node_spec",
         PDict (mkdict [("type", PStr node_type);
                        ("title", PStr node_title);
                        ("pins", py_or pins (PList []))]))])).

(* ---------------------------------------------------------------- *)
(** *** Material instancing *)

(** [create_material_instance] *)
Definition create_material_instance (self : AgentForgeClient)
    (parent_material instance_name output_path : string) : M ForgeResult :=
  execute self "create_material_instance"
    (PDict (mkdict [("parent_material", PStr parent_material);
                    ("instance_name", PStr instance_name);
                    ("output_path", PStr output_path)])).

(** [set_material_params]; each params argument is [PNone] when
    omitted. *)
Definition set_material_params (self : AgentForgeClient)
    (instance_path : string) (scalar_params vector_params : pyval)
    : M ForgeResult :=
  let args := mkdict [("instance_path", PStr instance_path)] in
  let args := if truthy scalar_params
              then <["scalar_params" := scalar_params]> args else args in
  let args := if truthy vector_params
              then <["vector_params" := vector_params]> args else args in
  execute self "set_material_params" (PDict args).

(* ---------------------------------------------------------------- *)
(** *** Content management *)

(** [rename_asset] *)
Definition rename_asset (self : AgentForgeClient)
    (asset_path new_name : string) : M ForgeResult :=
  execute self "rename_asset"
    (PDict (mkdict [("asset_path", PStr asset_path);
                    ("new_name", PStr new_name)])).

(** [move_asset] *)
Definition move_asset (self : AgentForgeClient)
    (asset_path destination_path : string) : M ForgeResult :=
  execute self "move_asset"
    (PDict (mkdict [("asset_path", PStr asset_path);
                    ("destination_path", PStr destination_path)])).

(** [delete_asset] *)
Definition delete_asset (self : AgentForgeClient) (asset_path : string)
    : M ForgeResult :=
  execute self "delete_asset"
    (PDict (mkdict [("asset_path", PStr asset_path)])).

(* ---------------------------------------------------------------- *)
(** *** Transaction safety *)

(** [begin_transaction] *)
Definition begin_transaction (self : AgentForgeClient) (label : string)
    : M ForgeResult :=
  execute self "begin_transaction" (PDict (mkdict [("label", PStr label)])).

(** [end_transaction] *)
Definition end_transaction (self : AgentForgeClient) : M ForgeResult :=
  execute self "end_transaction" PNone.

(** [undo_transaction] *)
Definition undo_transaction (self : AgentForgeClient) : M ForgeResult :=
  execute self "undo_transaction" PNone.

(** [create_snapshot] *)
Definition create_snapshot (self : AgentForgeClient)
    (snapshot_name : string) : M ForgeResult :=
  execute self "create_snapshot"
    (PDict (mkdict [("snapshot_name", PStr snapshot_name)])).

(* ---------------------------------------------------------------- *)
(** *** Context manager *)

(** [_TransactionContext] *)
Record _TransactionContext : Type := mkTransactionContext {
  _client : AgentForgeClient;
  _label : string;
}.

(** [AgentForgeClient.transaction] *)
Definition transaction (self : AgentForgeClient) (label : string)
    : _TransactionContext :=
  {| _client := self; _label := label |}.

(** [_TransactionContext.__enter__] *)
Definition __enter__ (self : _TransactionContext) : M AgentForgeClient :=
  _ ← begin_transaction (_client self) (_label self);
  mret (_client self).

(** [_TransactionContext.__exit__]; [exc] is the exception the body
    raised, if any ([exc_type is not None]). *)
Definition __exit__ (self : _TransactionContext) (exc : option exn)
    : M pyval :=
  match exc with
  | Some _ =>
    _ ← undo_transaction (_client self);
    mret (PBool false)
  | None =>
    _ ← end_transaction (_client self);
    mret (PBool false)
  end.

(** The [with mgr: body] statement of the language: [__enter__] runs
    first and, if it raises, neither the body nor [__exit__] runs; an
    exception of the body is handed to [__exit__] and re-raised unless
    [__exit__] returns a true value; an exception raised by [__exit__]
    itself replaces it. *)
Definition with_ (mgr : _TransactionContext)
    (body : AgentForgeClient -> M unit) : M unit :=
  fun h =>
    match __enter__ mgr h with
    | (Raise e, h1) => (Raise e, h1)
    | (Ok target, h1) =>
      match body target h1 with
      | (Ok _, h2) =>
        match __exit__ mgr None h2 with
        | (Ok _, h3) => (Ok tt, h3)
        | (Raise e', h3) => (Raise e', h3)
        end
      | (Raise e, h2) =>
        match __exit__ mgr (Some e) h2 with
        | (Ok suppress, h3) =>
          if truthy suppress then (Ok tt, h3) else (Raise e, h3)
        | (Raise e', h3) => (Raise e', h3)
        end
      end
    end.
(* ---------------------------------------------------------------- *)
(** *** Observation, spatial queries, scripting and profiling *)

(** [get_forge_status] *)
Definition get_forge_status (self : AgentForgeClient) : M pyval :=
  _send self "get_forge_status" PNone.

(** [get_all_level_actors] *)
Definition get_all_level_actors (self : AgentForgeClient) : M pyval :=
  data ← _send self "get_all_level_actors" PNone;
  lift (py_get data "actors" (PList [])).

(** [get_actor_components] *)
Definition get_actor_components (self : AgentForgeClient) (label : string)
    : M pyval :=
  data ← _send self "get_actor_components"
           (PDict (mkdict [("label", PStr label)]));
  lift (py_get data "components" (PList [])).

(** [get_current_level] *)
Definition get_current_level (self : AgentForgeClient) : M pyval :=
  _send self "get_current_level" PNone.

(** [assert_current_level] *)
Definition assert_current_level (self : AgentForgeClient)
    (expected_level : string) : M pyval :=
  _send self "assert_current_level"
    (PDict (mkdict [("expected_level", PStr expected_level)])).

(** [get_actor_bounds] *)
Definition get_actor_bounds (self : AgentForgeClient) (label : string)
    : M pyval :=
  _send self "get_actor_bounds" (PDict (mkdict [("label", PStr label)])).

(** [take_screenshot] *)
Definition take_screenshot (self : AgentForgeClient) (filename : string)
    : M ForgeResult :=
  execute self "take_screenshot" (PDict (mkdict [("filename", PStr filename)])).

(** [cast_ray] *)
Definition cast_ray (self : AgentForgeClient) (start end_ trace_complex : pyval)
    : M pyval :=
  _send self "cast_ray"
    (PDict (mkdict [("start", start); ("end", end_);
                    ("trace_complex", trace_complex)])).

(** [query_navmesh] *)
Definition query_navmesh (self : AgentForgeClient)
    (x y z extent_x extent_y extent_z : pyval) : M pyval :=
  _send self "query_navmesh"
    (PDict (mkdict [("x", x); ("y", y); ("z", z);
                    ("extent_x", extent_x); ("extent_y", extent_y);
                    ("extent_z", extent_z)])).

(** [execute_python] *)
Definition execute_python (self : AgentForgeClient) (script : string)
    : M ForgeResult :=
  execute self "execute_python" (PDict (mkdict [("script", PStr script)])).

(** [get_perf_stats] *)
Definition get_perf_stats (self : AgentForgeClient) : M pyval :=
  _send self "get_perf_stats" PNone.

(** [setup_test_level] *)
Definition setup_test_level (self : AgentForgeClient) (floor_size : pyval)
    : M ForgeResult :=
  execute self "setup_test_level" (PDict (mkdict [("floor_size", floor_size)])).
End Client.

(* ------------------------------------------------------------------ *)
(** ** The verification report as text *)

(** [format(x, ".1f")] on a number, as an interface of the interpreter. *)
Class PyFormat : Type := {
  format_1f : pyval -> string;
}.

(** Whether [f"{v:.1f}"] is defined: on a [bool], a [float], and an [int]
    that converts to a float, that is one of magnitude below
    [2^1024 - 2^970], where rounding to 53 bits reaches [2^1024]
    ([OverflowError]).  Any other value raises [TypeError] or
    [ValueError]. *)
Definition fixed_formattable (v : pyval) : bool :=
  match v with
  | PBool _ | PFloat _ => true
  | PInt z => (Z.abs z <? 2 ^ 1024 - 2 ^ 970)%Z
  | _ => false
  end.

(** [f"{v:.1f}"]; [None] where it raises. *)
Definition format_fixed1 `{PyFormat} (v : pyval) : option string :=
  if fixed_formattable v then Some (format_1f v) else None.

(** The line separator of ["\n".join]. *)
Definition newline : string := String "010"%char EmptyString.

(** What [for d in v] visits; [None] where [v] is not iterable.  A dict
    yields its keys and a string its characters: all of them strings (the
    order of a dict's keys is not tracked by the map). *)
Definition py_iter (v : pyval) : option (list pyval) :=
  match v with
  | PList l => Some l
  | PDict d => Some (map (fun kv => PStr kv.1) (map_to_list d))
  | PStr s => Some (map (fun c => PStr (String c EmptyString))
                        (list_ascii_of_string s))
  | _ => None
  end.

Section Summary.
Context `{PyBuiltins} `{PyFormat}.

(** The first line of [VerificationReport.summary]. *)
Definition summary_header (self : VerificationReport) : string :=
  "Verification: " ++ (if truthy (all_passed self) then "PASSED" else "FAILED")
  ++ " " ++ "(" ++ py_str (phases_run self) ++ " phases)".

(** One pass of the loop body of [summary]: the line for the detail [d];
    [None] where it raises ([d.get] on something that is not a dict, or a
    [duration_ms] that is not a number). *)
Definition summary_line (d : pyval) : option string :=
  match d with
  | PDict m =>
    let status := if truthy (default PNone (m !! "passed"))
                  then "✓" else "✗" in
    dur ← format_fixed1 (default (PInt 0) (m !! "duration_ms"));
    Some ("  " ++ status ++ " [" ++ py_str (default (PStr "?") (m !! "phase"))
          ++ "] " ++ py_str (default (PStr "") (m !! "detail")) ++ " "
          ++ "(" ++ dur ++ "ms)")
  | _ => None
  end.

(** The loop of [summary] over the details. *)
Fixpoint summary_lines (ds : list pyval) : option (list string) :=
  match ds with
  | [] => Some []
  | d :: rest =>
    line ← summary_line d;
    lines ← summary_lines rest;
    Some (line :: lines)
  end.

(** [VerificationReport.summary]; [None] where it raises. *)
Definition summary (self : VerificationReport) : option string :=
  ds ← py_iter (details self);
  lines ← summary_lines ds;
  Some (String.concat newline (summary_header self :: lines)).
End Summary.

(* ------------------------------------------------------------------ *)
(** ** Test doubles

    A mocked interpreter and mocked hosts, to run the client on concrete
    inputs. *)
Module Mock.
(** Stands in for [json.dumps]: an envelope is written as its command
    name, which is enough to tell requests apart on the mocked wire. *)
Definition dumps (v : pyval) : string :=
  match v with
  | PDict d => match d !! "cmd" with Some (PStr c) => c | _ => "{}" end
  | _ => "null"
  end.

(** A double quote, and a name between double quotes. *)
Definition dquote : string := String "034"%char EmptyString.
Definition quoted (s : string) : string := dquote ++ s ++ dquote.

(** The JSON text of [{"ok": true, "spawned_name": "A_1"}]. *)
Definition spawned_text : string :=
  "{" ++ quoted "ok" ++ ": true, " ++ quoted "spawned_name" ++ ": "
  ++ quoted "A_1" ++ "}".

(** 2000 opening brackets: not JSON, and nested too deep to find out. *)
Definition deep_text : string := String.concat "" (repeat "[" 2000).

(** Stands in for [json.loads]: it agrees with the real decoder on the
    texts below and rejects every other text. *)
Definition loads (s : string) : loads_outcome :=
  if decide (s = "{}") then Decoded (PDict ∅)
  else if decide (s = "[]") then Decoded (PList [])
  else if decide (s = "null") then Decoded PNone
  else if decide (s = "true") then Decoded (PBool true)
  else if decide (s = "false") then Decoded (PBool false)
  else if decide (s = "NaN") then Decoded (PFloat S754_nan)
  else if decide (s = spawned_text)
       then Decoded (PDict (mkdict [("ok", PBool true);
                                    ("spawned_name", PStr "A_1")]))
  else if decide (s = deep_text) then DecoderRaises TooDeep
  else NotJSON.

(** Stands in for [repr()]: exact on [None], [bool], [int], on a [str]
    free of quotes and escapes, and on lists of these. *)
Fixpoint repr (v : pyval) : string :=
  match v with
  | PNone => "None"
  | PBool true => "True"
  | PBool false => "False"
  | PInt z => format_int z
  | PStr s => "'" ++ s ++ "'"
  | PFloat _ => "<float>"
  | PList l =>
    "[" ++ (fix items (l : list pyval) : string :=
              match l with
              | [] => ""
              | [x] => repr x
              | x :: rest => repr x ++ ", " ++ items rest
              end) l ++ "]"
  | PDict _ => "{...}"
  end.

(** Stands in for [str()]: a [str] is itself, anything else its [repr]. *)
Definition str (v : pyval) : string :=
  match v with
  | PStr s => s
  | _ => repr v
  end.

Definition builtins : PyBuiltins :=
  {| json_dumps := dumps; json_loads := loads; py_str := str |}.

(** A 200 reply whose body is [{"ReturnValue": v}]. *)
Definition reply (v : pyval) : put_result :=
  PutReturns {| status_code := 200;
                json := Decoded (PDict (mkdict [("ReturnValue", v)])) |}.

(** A host that answers the n-th request it receives with the n-th entry
    of [script], and cannot be reached once the script is used up. *)
Definition scripted (script : list put_result) : host_model :=
  fun h _ => nth (length h) script (PutRaises ConnectionError).

(** A host whose every call fails inside the transport with [e]. *)
Definition failing (e : requests_exception) : host_model :=
  fun _ _ => PutRaises e.

(** [AgentForgeClient()] and [AgentForgeClient(verify=False)] *)
Definition safe_client : AgentForgeClient :=
  __init__ DEFAULT_HOST DEFAULT_PORT DEFAULT_TIMEOUT true.
Definition fast_client : AgentForgeClient :=
  __init__ DEFAULT_HOST DEFAULT_PORT DEFAULT_TIMEOUT false.

(** A policy reply that denies the action. *)
Definition denied : pyval :=
  PDict (mkdict [("allowed", PBool false);
                 ("violations", PList [PStr "no spawning"])]).

(** A command reply [{"ok": true}]. *)
Definition ok_reply : pyval := PDict (mkdict [("ok", PBool true)]).

(** A policy reply without an ["allowed"] entry. *)
Definition no_verdict : pyval :=
  PDict (mkdict [("violations", PList [])]).

(** The default spawn of the module docstring, at the origin. *)
Definition spawn_origin (host : host_model) (self : AgentForgeClient)
    : M ForgeResult :=
  @spawn_actor builtins host self "/Script/Engine.StaticMeshActor"
    (PFloat (S754_zero false)) (PFloat (S754_zero false))
    (PFloat (S754_zero false)) (PFloat (S754_zero false))
    (PFloat (S754_zero false)) (PFloat (S754_zero false)).

(** The request of [spawn_actor]'s policy check for that class. *)
Definition check_request (self : AgentForgeClient) : request :=
  @wire_request builtins self "enforce_constitution"
    (PDict (mkdict [("action_description",
                     PStr "spawn_actor /Script/Engine.StaticMeshActor")])).

(** A [with] body that sends nothing and raises. *)
Definition failing_body (_ : AgentForgeClient) : M unit :=
  raise (Exception "boom").

(** A [with] body that deletes one actor. *)
Definition deleting_body (host : host_model) (c : AgentForgeClient)
    : M unit :=
  _ ← @delete_actor builtins host c "Cube_1"; mret tt.
(** Stands in for [format(x, ".1f")]: exact on an [int]. *)
Definition fmt1 (v : pyval) : string :=
  match v with
  | PInt z => format_int z ++ ".0"
  | PBool true => "1.0"
  | PBool false => "0.0"
  | _ => "<float>"
  end.

Definition formats : PyFormat := {| format_1f := fmt1 |}.

(** A 200 reply with the body [v]. *)
Definition body_reply (v : pyval) : put_result :=
  PutReturns {| status_code := 200; json := Decoded v |}.

(** A reply with an HTTP status and no JSON body. *)
Definition status_reply (status : Z) : put_result :=
  PutReturns {| status_code := status; json := NotJSON |}.

(** A [with] body that spawns at the origin. *)
Definition spawning_body (host : host_model) (c : AgentForgeClient)
    : M unit :=
  _ ← spawn_origin host c; mret tt.
(** The request of a bare command of [safe_client]. *)
Definition sent (cmd : string) (args : pyval) : request :=
  @wire_request builtins safe_client cmd args.

(** The arguments of [spawn_origin]. *)
Definition origin_args : pyval :=
  transform_args ("class_path", PStr "/Script/Engine.StaticMeshActor")
    (PFloat (S754_zero false)) (PFloat (S754_zero false))
    (PFloat (S754_zero false)) (PFloat (S754_zero false))
    (PFloat (S754_zero false)) (PFloat (S754_zero false)).

(** A report of one passed phase. *)
Definition one_phase_report : VerificationReport :=
  {| all_passed := PBool true;
     phases_run := PInt 1;
     details := PList [PDict (mkdict [("phase", PStr "PreFlight");
                                      ("passed", PBool true);
                                      ("detail", PStr "ok");
                                      ("duration_ms", PInt 2)])] |}.

(** A report with a detail whose duration is text. *)
Definition bad_duration_report : VerificationReport :=
  {| all_passed := PBool true;
     phases_run := PInt 1;
     details := PList [PDict (mkdict [("phase", PStr "PreFlight");
                                      ("duration_ms", PStr "2ms")])] |}.
(** A command reply that reports failure. *)
Definition refused : pyval :=
  PDict (mkdict [("ok", PBool false); ("error", PStr "no level is open")]).

(** A [with] body that sends nothing and returns. *)
Definition idle_body (_ : AgentForgeClient) : M unit := mret tt.
End Mock.

(* ------------------------------------------------------------------ *)
(** ** Stating the transport's error contract *)

(** Whether an exception leaving [_send] is a connection failure in the
    client's terms: the [RuntimeError] it raises for an unreachable editor,
    or an exception of the transport's [ConnectionError] family. *)
Definition connection_failure (self : AgentForgeClient) (e : exn) : bool :=
  match e with
  | RuntimeError msg => bool_decide (msg = cannot_connect self)
  | Requests r => isinstance_ConnectionError r
  | _ => false
  end.

(* ================================================================== *)
(** * Properties *)

(** Expose the state-passing behind the monad's operations. *)
Ltac run_M := unfold mbind, M_bind, bind, mret, M_ret, ret, lift, raise in *.

Section Properties.
Context `{PyBuiltins}.
Variable host : host_model.

(** Every [_send] puts exactly one request on the wire, whatever
    happens next. *)
Lemma _send_log self cmd args h :
  (_send host self cmd args h).2 = (h ++ [wire_request self cmd args])%list.
Proof.
  unfold _send, try_except, session_put; run_M.
  destruct (host h (wire_request self cmd args)) as [e|r]; simpl.
  - destruct (isinstance_ConnectionError e); reflexivity.
  - unfold raise_for_status.
    destruct ((400 <=? status_code r)%Z && (status_code r <? 600)%Z); simpl.
    + reflexivity.
    + unfold resp_json. destruct (json r); simpl; reflexivity.
Qed.

Lemma execute_log self cmd args h :
  (execute host self cmd args h).2 = (h ++ [wire_request self cmd args])%list.
Proof.
  unfold execute; run_M.
  pose proof (_send_log self cmd args h) as L.
  destruct (_send host self cmd args h) as [[v|e] h']; simpl in *; exact L.
Qed.

(** A 2xx/3xx reply with a JSON body is decoded by [decode_body]. *)
Lemma _send_reply self cmd args h r body :
  host h (wire_request self cmd args) = PutReturns r ->
  ((400 <=? status_code r) && (status_code r <? 600))%Z = false ->
  json r = Decoded body ->
  _send host self cmd args h =
  (decode_body body, (h ++ [wire_request self cmd args])%list).
Proof.
  intros Hput Hst Hjs.
  unfold _send, try_except, session_put; run_M.
  rewrite Hput; simpl. unfold raise_for_status. rewrite Hst; simpl.
  unfold resp_json. rewrite Hjs; simpl. reflexivity.
Qed.

(** A failure inside the transport is converted or passed on unchanged,
    by its class. *)
Lemma _send_put_raises self cmd args h e :
  host h (wire_request self cmd args) = PutRaises e ->
  _send host self cmd args h =
  (Raise (if isinstance_ConnectionError e
          then RuntimeError (cannot_connect self) else Requests e),
   (h ++ [wire_request self cmd args])%list).
Proof.
  intros Hput.
  unfold _send, try_except, session_put; run_M.
  rewrite Hput; simpl.
  destruct (isinstance_ConnectionError e); reflexivity.
Qed.

(* ---------------------------------------------------------------- *)
(** *** Result Model *)

(** C5.  For a decoded reply mapping [d], [from_response] sets
    [error = d.get("error")] and [ok = (error is None) and
    d.get("ok", True)].  A reply with neither key has [ok = True]; a
    reply with ["error": "X"] has [ok = False] and [error = "X"], whatever
    it holds under ["ok"]. *)
Theorem from_response_rule (d : gmap string pyval) :
  from_response (PDict d) =
    Ok {| raw := PDict d;
          ok := py_and (PBool (is_None (default PNone (d !! "error"))))
                  (default (PBool true) (d !! "ok"));
          error := default PNone (d !! "error") |}
  /\ (d !! "error" = None -> d !! "ok" = None ->
      from_response (PDict d) =
        Ok {| raw := PDict d; ok := PBool true; error := PNone |})
  /\ (forall X : string, d !! "error" = Some (PStr X) ->
      from_response (PDict d) =
        Ok {| raw := PDict d; ok := PBool false; error := PStr X |}).
Proof.
  unfold from_response; simpl. split; [|split].
  - destruct (is_None (default PNone (d !! "error"))); reflexivity.
  - intros -> ->. reflexivity.
  - intros X ->. reflexivity.
Qed.

(* ---------------------------------------------------------------- *)
(** *** Command Envelope Codec *)

(** C8.  Every [_send] puts on the wire one request whose [RequestJson]
    is the serialised envelope, and the envelope always has an ["args"]
    entry: the caller's arguments, or the empty mapping when there are
    none ([None], or an empty dict). *)
Theorem envelope_always_has_args self cmd args h :
  (_send host self cmd args h).2 = (h ++ [wire_request self cmd args])%list
  /\ req_json (wire_request self cmd args) =
     PDict (mkdict [("objectPath", PStr OBJECT_PATH);
                    ("functionName", PStr FUNCTION);
                    ("parameters",
                     PDict (mkdict
                       [("RequestJson",
                         PStr (json_dumps (command_envelope cmd args)))]))])
  /\ (exists d, command_envelope cmd args = PDict d
               /\ d !! "cmd" = Some (PStr cmd)
               /\ d !! "args" = Some (if truthy args then args else PDict ∅))
  /\ command_envelope cmd PNone =
     PDict (mkdict [("cmd", PStr cmd); ("args", PDict ∅)]).
Proof.
  split; [apply _send_log|]. split; [reflexivity|]. split; [|reflexivity].
  eexists. split; [reflexivity|]. unfold mkdict, py_or; simpl. split.
  - rewrite lookup_insert_ne by discriminate. apply lookup_insert_eq.
  - apply lookup_insert_eq.
Qed.

(** C6.  When the host's [ReturnValue] is a string that [json.loads]
    decodes to an object [m], [_send] returns [m], and that is exactly what
    it returns for a reply that carries [m] itself under [ReturnValue]. *)
Theorem decode_encoding_transparent (host' : host_model) self cmd args h
    r r' (body body' : gmap string pyval) (s : string)
    (m : gmap string pyval) :
  host h (wire_request self cmd args) = PutReturns r ->
  ((400 <=? status_code r) && (status_code r <? 600))%Z = false ->
  json r = Decoded (PDict body) ->
  body !! "ReturnValue" = Some (PStr s) ->
  json_loads s = Decoded (PDict m) ->
  host' h (wire_request self cmd args) = PutReturns r' ->
  ((400 <=? status_code r') && (status_code r' <? 600))%Z = false ->
  json r' = Decoded (PDict body') ->
  body' !! "ReturnValue" = Some (PDict m) ->
  _send host self cmd args h =
    (Ok (PDict m), (h ++ [wire_request self cmd args])%list)
  /\ _send host self cmd args h = _send host' self cmd args h.
Proof.
  intros Hput Hst Hjs Hs Hl Hput' Hst' Hjs' Hm.
  assert (E : _send host self cmd args h =
    (Ok (PDict m), (h ++ [wire_request self cmd args])%list)).
  { unfold _send, try_except, session_put; run_M.
    rewrite Hput; simpl. unfold raise_for_status. rewrite Hst; simpl.
    unfold resp_json. rewrite Hjs; simpl.
    unfold decode_body; simpl. rewrite Hs; simpl. rewrite Hl. reflexivity. }
  split; [exact E|]. rewrite E.
  unfold _send, try_except, session_put; run_M.
  rewrite Hput'; simpl. unfold raise_for_status. rewrite Hst'; simpl.
  unfold resp_json. rewrite Hjs'; simpl.
  unfold decode_body; simpl. rewrite Hm. reflexivity.
Qed.

(** C7, as the code has it.  When [ReturnValue] is a string on which
    [json.loads] raises [JSONDecodeError], the reply decodes to
    [{"raw": s}] and [_send] returns it to the caller instead of raising.
    When [json.loads] raises anything else on the string
    ([RecursionError], [ValueError]), that exception leaves [_send]; and
    whatever [json.loads] accepts is returned decoded. *)
Theorem decode_unparsable_is_raw self cmd args h r
    (body : gmap string pyval) (s : string) :
  host h (wire_request self cmd args) = PutReturns r ->
  ((400 <=? status_code r) && (status_code r <? 600))%Z = false ->
  json r = Decoded (PDict body) ->
  body !! "ReturnValue" = Some (PStr s) ->
  (json_loads s = NotJSON ->
   decode_body (PDict body) = Ok (PDict (mkdict [("raw", PStr s)]))
   /\ (_send host self cmd args h).1 = Ok (PDict (mkdict [("raw", PStr s)])))
  /\ (forall e, json_loads s = DecoderRaises e ->
      (_send host self cmd args h).1 = Raise (decoder_exn e))
  /\ (forall v, json_loads s = Decoded v ->
      (_send host self cmd args h).1 = Ok v).
Proof.
  intros Hput Hst Hjs Hs.
  rewrite (_send_reply self cmd args h r (PDict body) Hput Hst Hjs).
  unfold decode_body; simpl. rewrite Hs; simpl.
  split; [|split].
  - intros Hl. rewrite Hl. split; reflexivity.
  - intros e Hl. rewrite Hl. reflexivity.
  - intros v Hl. rewrite Hl. reflexivity.
Qed.

(* ---------------------------------------------------------------- *)
(** *** Policy Gate *)

(** With [verify] off, [spawn_actor] is the bare command. *)
Lemma spawn_actor_unverified self class_path x y z pitch yaw roll h :
  verify self = false ->
  spawn_actor host self class_path x y z pitch yaw roll h =
  execute host self "spawn_actor"
    (transform_args ("class_path", PStr class_path) x y z pitch yaw roll) h.
Proof.
  intros Hv. unfold spawn_actor. rewrite Hv. reflexivity.
Qed.

(** With [verify] on, [spawn_actor] is decided by the policy reply. *)
Lemma spawn_actor_verified self class_path x y z pitch yaw roll h d h' :
  verify self = true ->
  enforce_constitution host self ("spawn_actor " ++ class_path) h
    = (Ok (PDict d), h') ->
  spawn_actor host self class_path x y z pitch yaw roll h =
  if truthy (default (PBool true) (d !! "allowed"))
  then execute host self "spawn_actor"
         (transform_args ("class_path", PStr class_path) x y z pitch yaw roll)
         h'
  else (Raise (PermissionError
                 ("Constitution blocked spawn_actor: "
                  ++ py_str (default PNone (d !! "violations")))), h').
Proof.
  intros Hv Hchk. unfold spawn_actor. rewrite Hv.
  run_M. rewrite Hchk; simpl.
  destruct (truthy (default (PBool true) (d !! "allowed"))); reflexivity.
Qed.

(** C2.  With [verify] on, when the policy reply to [spawn_actor]'s check
    has [allowed] false, [spawn_actor] raises [PermissionError] with the
    violations in its message, and the only request sent is the check:
    the spawn command never reaches the transport. *)
Theorem spawn_actor_denied self class_path x y z pitch yaw roll h d h' :
  verify self = true ->
  enforce_constitution host self ("spawn_actor " ++ class_path) h
    = (Ok (PDict d), h') ->
  d !! "allowed" = Some (PBool false) ->
  spawn_actor host self class_path x y z pitch yaw roll h =
    (Raise (PermissionError
              ("Constitution blocked spawn_actor: "
               ++ py_str (default PNone (d !! "violations")))),
     (h ++ [wire_request self "enforce_constitution"
              (PDict (mkdict [("action_description",
                               PStr ("spawn_actor " ++ class_path))]))])%list).
Proof.
  intros Hv Hchk Hal.
  rewrite (spawn_actor_verified _ _ x y z pitch yaw roll _ _ _ Hv Hchk).
  rewrite Hal; simpl.
  pose proof (_send_log self "enforce_constitution"
    (PDict (mkdict [("action_description",
                     PStr ("spawn_actor " ++ class_path))])) h) as L.
  unfold enforce_constitution in Hchk. rewrite Hchk in L. simpl in L.
  rewrite L. reflexivity.
Qed.

(** C10.  With [verify] on, when the policy reply has no ["allowed"]
    entry, [spawn_actor] goes on to run the spawn command: after the check
    it sends the spawn request, and its outcome is that command's. *)
Theorem spawn_actor_missing_allowed_proceeds
    self class_path x y z pitch yaw roll h d h' :
  verify self = true ->
  enforce_constitution host self ("spawn_actor " ++ class_path) h
    = (Ok (PDict d), h') ->
  d !! "allowed" = None ->
  spawn_actor host self class_path x y z pitch yaw roll h =
    execute host self "spawn_actor"
      (transform_args ("class_path", PStr class_path) x y z pitch yaw roll)
      h'
  /\ (spawn_actor host self class_path x y z pitch yaw roll h).2 =
     (h ++ [wire_request self "enforce_constitution"
              (PDict (mkdict [("action_description",
                               PStr ("spawn_actor " ++ class_path))]));
            wire_request self "spawn_actor"
              (transform_args ("class_path", PStr class_path)
                 x y z pitch yaw roll)])%list.
Proof.
  intros Hv Hchk Hal.
  rewrite (spawn_actor_verified _ _ x y z pitch yaw roll _ _ _ Hv Hchk).
  rewrite Hal; simpl. split; [reflexivity|].
  rewrite execute_log.
  pose proof (_send_log self "enforce_constitution"
    (PDict (mkdict [("action_description",
                     PStr ("spawn_actor " ++ class_path))])) h) as L.
  unfold enforce_constitution in Hchk. rewrite Hchk in L. simpl in L.
  rewrite L, <- app_assoc. reflexivity.
Qed.

(** C1.  With [verify] on or off, every mutating operation other than
    [spawn_actor] is the bare command: it is [execute] of its own command,
    which sends exactly that one request, so no [enforce_constitution]
    check goes before it.  [spawn_actor] is the bare command when [verify]
    is off. *)
Theorem ungated_mutations_send_no_check self :
  (forall cmd args h,
     (execute host self cmd args h).2 =
     (h ++ [wire_request self cmd args])%list)
  /\ (forall object_path x y z pitch yaw roll,
       set_actor_transform host self object_path x y z pitch yaw roll =
       execute host self "set_actor_transform"
         (transform_args ("object_path", PStr object_path)
            x y z pitch yaw roll))
  /\ (forall label,
       delete_actor host self label =
       execute host self "delete_actor"
         (PDict (mkdict [("label", PStr label)])))
  /\ (forall name parent_class output_path,
       create_blueprint host self name parent_class output_path =
       execute host self "create_blueprint"
         (PDict (mkdict [("name", PStr name);
                         ("parent_class", PStr parent_class);
                         ("output_path", PStr output_path)])))
  /\ (forall blueprint_path,
       compile_blueprint host self blueprint_path =
       execute host self "compile_blueprint"
         (PDict (mkdict [("blueprint_path", PStr blueprint_path)])))
  /\ (forall blueprint_path property_name type value,
       set_blueprint_cdo_property host self blueprint_path property_name
         type value =
       execute host self "set_bp_cdo_property"
         (PDict (mkdict [("blueprint_path", PStr blueprint_path);
                         ("property_name", PStr property_name);
                         ("type", PStr type);
                         ("value", PStr (py_str value))])))
  /\ (forall blueprint_path node_type node_title pins,
       edit_blueprint_node host self blueprint_path node_type node_title
         pins =
       execute host self "edit_blueprint_node"
         (PDict (mkdict
            [("blueprint_path", PStr blueprint_path);
             ("node_spec",
              PDict (mkdict [("type", PStr node_type);
                             ("title", PStr node_title);
                             ("pins", py_or pins (PList []))]))])))
  /\ (forall parent_material instance_name output_path,
       create_material_instance host self parent_material instance_name
         output_path =
       execute host self "create_material_instance"
         (PDict (mkdict [("parent_material", PStr parent_material);
                         ("instance_name", PStr instance_name);
                         ("output_path", PStr output_path)])))
  /\ (forall instance_path scalar_params vector_params,
       exists args,
         set_material_params host self instance_path scalar_params
           vector_params =
         execute host self "set_material_params" (PDict args))
  /\ (forall asset_path new_name,
       rename_asset host self asset_path new_name =
       execute host self "rename_asset"
         (PDict (mkdict [("asset_path", PStr asset_path);
                         ("new_name", PStr new_name)])))
  /\ (forall asset_path destination_path,
       move_asset host self asset_path destination_path =
       execute host self "move_asset"
         (PDict (mkdict [("asset_path", PStr asset_path);
                         ("destination_path", PStr destination_path)])))
  /\ (forall asset_path,
       delete_asset host self asset_path =
       execute host self "delete_asset"
         (PDict (mkdict [("asset_path", PStr asset_path)])))
  /\ (forall snapshot_name,
       create_snapshot host self snapshot_name =
       execute host self "create_snapshot"
         (PDict (mkdict [("snapshot_name", PStr snapshot_name)])))
  /\ (forall url t class_path x y z pitch yaw roll,
       spawn_actor host {| base_url := url; timeout := t; verify := false |}
         class_path x y z pitch yaw roll =
       execute host {| base_url := url; timeout := t; verify := false |}
         "spawn_actor"
         (transform_args ("class_path", PStr class_path)
            x y z pitch yaw roll)).
Proof.
  split; [intros; apply execute_log|].
  repeat split; intros; try reflexivity.
  eexists; reflexivity.
Qed.

(* ---------------------------------------------------------------- *)
(** *** Transaction Scope *)

(** [__exit__] sends exactly one request: [undo_transaction] when handed
    an exception, [end_transaction] otherwise. *)
Lemma __exit___log mgr exc h :
  (__exit__ host mgr exc h).2 =
  (h ++ [wire_request (_client mgr)
           (if exc is Some _ then "undo_transaction" else "end_transaction")
           PNone])%list.
Proof.
  unfold __exit__, undo_transaction, end_transaction; run_M.
  destruct exc as [e|].
  - pose proof (execute_log (_client mgr) "undo_transaction" PNone h) as L.
    destruct (execute host (_client mgr) "undo_transaction" PNone h)
      as [[v|e'] h']; simpl in *; exact L.
  - pose proof (execute_log (_client mgr) "end_transaction" PNone h) as L.
    destruct (execute host (_client mgr) "end_transaction" PNone h)
      as [[v|e'] h']; simpl in *; exact L.
Qed.

(** C3, as the code has it.  Once the scope is entered, scope exit sends
    exactly one request after the body's: [end_transaction] if the body
    returned, [undo_transaction] if it raised.  In the second case the
    body's exception is re-raised unchanged when the [undo_transaction]
    call returns; when that call itself raises, its exception is the one
    the caller sees. *)
Theorem transaction_scope_exit self label
    (body : AgentForgeClient -> M unit) h target h1 :
  __enter__ host (transaction self label) h = (Ok target, h1) ->
  target = self
  /\ match body self h1 with
     | (Ok _, h2) =>
       (with_ host (transaction self label) body h).2 =
         (h2 ++ [wire_request self "end_transaction" PNone])%list
       /\ (with_ host (transaction self label) body h).1 =
          match (end_transaction host self h2).1 with
          | Ok _ => Ok tt
          | Raise e' => Raise e'
          end
     | (Raise e, h2) =>
       (with_ host (transaction self label) body h).2 =
         (h2 ++ [wire_request self "undo_transaction" PNone])%list
       /\ (with_ host (transaction self label) body h).1 =
          match (undo_transaction host self h2).1 with
          | Ok _ => Raise e
          | Raise e' => Raise e'
          end
     end.
Proof.
  intros Hen.
  assert (target = self) as ->.
  { unfold __enter__ in Hen; run_M.
    simpl in Hen.
    destruct (begin_transaction host self label h) as [[v|e] h0];
      simpl in Hen; congruence. }
  split; [reflexivity|].
  unfold with_. rewrite Hen.
  destruct (body self h1) as [[[]|e] h2].
  - pose proof (__exit___log (transaction self label) None h2) as L.
    unfold __exit__ in *; run_M.
    simpl in *.
    destruct (end_transaction host self h2) as [[v|e'] h3];
      simpl in *; auto.
  - pose proof (__exit___log (transaction self label) (Some e) h2) as L.
    unfold __exit__ in *; run_M.
    simpl in *.
    destruct (undo_transaction host self h2) as [[v|e'] h3];
      simpl in *; auto.
Qed.

(** C4, as the code has it.  When [begin_transaction] raises on scope
    entry, the [with] statement raises that exception at once: the body
    does not run and the only request sent is [begin_transaction], so
    neither [end_transaction] nor [undo_transaction] is attempted.  When
    [begin_transaction] returns, whatever its [ForgeResult] says (a failed
    one included), the result is dropped and the scope is entered: the
    body runs and [end_transaction] or [undo_transaction] follows it. *)
Theorem begin_failure_opens_no_scope self label
    (body : AgentForgeClient -> M unit) h :
  match begin_transaction host self label h with
  | (Raise e, h1) =>
    with_ host (transaction self label) body h = (Raise e, h1)
    /\ h1 = (h ++ [wire_request self "begin_transaction"
                     (PDict (mkdict [("label", PStr label)]))])%list
  | (Ok _, h1) =>
    h1 = (h ++ [wire_request self "begin_transaction"
                  (PDict (mkdict [("label", PStr label)]))])%list
    /\ (with_ host (transaction self label) body h).2 =
       ((body self h1).2
          ++ [wire_request self
                (if (body self h1).1 is Ok _
                 then "end_transaction" else "undo_transaction")
                PNone])%list
  end.
Proof.
  pose proof (execute_log self "begin_transaction"
    (PDict (mkdict [("label", PStr label)])) h) as L.
  change (execute host self "begin_transaction"
            (PDict (mkdict [("label", PStr label)])) h)
    with (begin_transaction host self label h) in L.
  destruct (begin_transaction host self label h) as [[res|e] h1] eqn:Hb;
    simpl in L; subst h1.
  - split; [reflexivity|].
    assert (En : __enter__ host (transaction self label) h =
      (Ok self, (h ++ [wire_request self "begin_transaction"
                         (PDict (mkdict [("label", PStr label)]))])%list)).
    { unfold __enter__; run_M; simpl. rewrite Hb. reflexivity. }
    unfold with_. rewrite En.
    destruct (body self _) as [[[]|e] h2].
    + pose proof (__exit___log (transaction self label) None h2) as X.
      destruct (__exit__ host (transaction self label) None h2)
        as [[v|e'] h3]; simpl in *; exact X.
    + pose proof (__exit___log (transaction self label) (Some e) h2) as X.
      destruct (__exit__ host (transaction self label) (Some e) h2)
        as [[v|e'] h3]; simpl in *; [destruct (truthy v)|]; exact X.
  - split; [|reflexivity].
    unfold with_, __enter__; run_M; simpl. rewrite Hb. reflexivity.
Qed.

(* ---------------------------------------------------------------- *)
(** *** Transport *)

(** C9, as the code has it.  When the [put] raises an exception of the
    [ConnectionError] family (a connect-phase timeout is one), [_send]
    raises [RuntimeError] with a message that names the target URL and
    tells the caller to make sure the editor is running with Remote
    Control enabled; any other transport exception, a read timeout
    included, leaves [_send] unchanged. *)
Theorem send_transport_failure self cmd args h e :
  host h (wire_request self cmd args) = PutRaises e ->
  (_send host self cmd args h).1 =
    Raise (if isinstance_ConnectionError e
           then RuntimeError (cannot_connect self) else Requests e)
  /\ cannot_connect self =
     "Cannot connect to Unreal Editor at " ++ base_url self ++ ". "
     ++ "Ensure the editor is running with Remote Control API enabled."
  /\ isinstance_ConnectionError ConnectTimeout = true
  /\ isinstance_ConnectionError ReadTimeout = false.
Proof.
  intros Hput. rewrite (_send_put_raises self cmd args h e Hput).
  repeat split.
Qed.
End Properties.

(* ------------------------------------------------------------------ *)
(** ** The properties on concrete runs *)

(** The spawn reply of the host, once as JSON text and once as the object
    itself. *)
Lemma decode_encoding_transparent_witness :
  @_send Mock.builtins (Mock.scripted [Mock.reply (PStr Mock.spawned_text)])
    Mock.safe_client "spawn_actor" PNone [] =
    (Ok (PDict (mkdict [("ok", PBool true); ("spawned_name", PStr "A_1")])),
     ([] ++ [@wire_request Mock.builtins Mock.safe_client
               "spawn_actor" PNone])%list)
  /\ @_send Mock.builtins
       (Mock.scripted [Mock.reply (PStr Mock.spawned_text)])
       Mock.safe_client "spawn_actor" PNone [] =
     @_send Mock.builtins
       (Mock.scripted
          [Mock.reply (PDict (mkdict [("ok", PBool true);
                                      ("spawned_name", PStr "A_1")]))])
       Mock.safe_client "spawn_actor" PNone [].
Proof.
  apply (@decode_encoding_transparent Mock.builtins
           (Mock.scripted [Mock.reply (PStr Mock.spawned_text)])
           (Mock.scripted
              [Mock.reply (PDict (mkdict [("ok", PBool true);
                                          ("spawned_name", PStr "A_1")]))])
           Mock.safe_client "spawn_actor" PNone []
           {| status_code := 200;
              json := Decoded (PDict (mkdict [("ReturnValue",
                                               PStr Mock.spawned_text)])) |}
           {| status_code := 200;
              json := Decoded
                (PDict (mkdict
                   [("ReturnValue",
                     PDict (mkdict [("ok", PBool true);
                                    ("spawned_name", PStr "A_1")]))])) |}
           (mkdict [("ReturnValue", PStr Mock.spawned_text)])
           (mkdict [("ReturnValue",
                     PDict (mkdict [("ok", PBool true);
                                    ("spawned_name", PStr "A_1")]))])
           Mock.spawned_text
           (mkdict [("ok", PBool true); ("spawned_name", PStr "A_1")]));
    reflexivity.
Defined.

Lemma decode_unparsable_is_raw_witness :
  (Mock.loads "Internal error" = NotJSON ->
   @decode_body Mock.builtins
      (PDict (mkdict [("ReturnValue", PStr "Internal error")]))
     = Ok (PDict (mkdict [("raw", PStr "Internal error")]))
   /\ (@_send Mock.builtins
         (Mock.scripted [Mock.reply (PStr "Internal error")])
         Mock.safe_client "ping" PNone []).1
     = Ok (PDict (mkdict [("raw", PStr "Internal error")])))
  /\ (forall e, Mock.loads "Internal error" = DecoderRaises e ->
      (@_send Mock.builtins
         (Mock.scripted [Mock.reply (PStr "Internal error")])
         Mock.safe_client "ping" PNone []).1 = Raise (decoder_exn e))
  /\ (forall v, Mock.loads "Internal error" = Decoded v ->
      (@_send Mock.builtins
         (Mock.scripted [Mock.reply (PStr "Internal error")])
         Mock.safe_client "ping" PNone []).1 = Ok v).
Proof.
  apply (@decode_unparsable_is_raw Mock.builtins
           (Mock.scripted [Mock.reply (PStr "Internal error")])
           Mock.safe_client "ping" PNone []
           {| status_code := 200;
              json := Decoded (PDict (mkdict [("ReturnValue",
                                               PStr "Internal error")])) |});
    reflexivity.
Defined.

(** C7 as stated fails: 2000 opening brackets are not valid JSON, yet
    [json.loads] gives up on them with [RecursionError], which the
    [except json.JSONDecodeError] of [_send] does not catch: the caller
    gets the exception, not [{"raw": ...}]. *)
Lemma deep_text_escapes_the_raw_fallback :
  String.length Mock.deep_text = 2000
  /\ (forall v, Mock.loads Mock.deep_text <> Decoded v)
  /\ (@_send Mock.builtins
        (Mock.scripted [Mock.reply (PStr Mock.deep_text)])
        Mock.safe_client "ping" PNone []).1 =
     Raise (RecursionError "maximum recursion depth exceeded")
  /\ (@_send Mock.builtins
        (Mock.scripted [Mock.reply (PStr Mock.deep_text)])
        Mock.safe_client "ping" PNone []).1 <>
     Ok (PDict (mkdict [("raw", PStr Mock.deep_text)])).
Proof.
  split; [vm_compute; reflexivity|].
  split; [intros v; vm_compute; discriminate|].
  split; [vm_compute; reflexivity|].
  vm_compute. discriminate.
Qed.

Lemma spawn_actor_denied_witness :
  Mock.spawn_origin (Mock.scripted [Mock.reply Mock.denied])
    Mock.safe_client [] =
  (Raise (PermissionError
            "Constitution blocked spawn_actor: ['no spawning']"),
   [Mock.check_request Mock.safe_client]).
Proof.
  apply (@spawn_actor_denied Mock.builtins
           (Mock.scripted [Mock.reply Mock.denied]) Mock.safe_client
           "/Script/Engine.StaticMeshActor"
           (PFloat (S754_zero false)) (PFloat (S754_zero false))
           (PFloat (S754_zero false)) (PFloat (S754_zero false))
           (PFloat (S754_zero false)) (PFloat (S754_zero false))
           []
           (mkdict [("allowed", PBool false);
                    ("violations", PList [PStr "no spawning"])])
           [Mock.check_request Mock.safe_client]);
    reflexivity.
Defined.

Lemma spawn_actor_missing_allowed_proceeds_witness :
  Mock.spawn_origin
    (Mock.scripted [Mock.reply Mock.no_verdict; Mock.reply Mock.ok_reply])
    Mock.safe_client [] =
  @execute Mock.builtins
    (Mock.scripted [Mock.reply Mock.no_verdict; Mock.reply Mock.ok_reply])
    Mock.safe_client "spawn_actor"
    (transform_args ("class_path", PStr "/Script/Engine.StaticMeshActor")
       (PFloat (S754_zero false)) (PFloat (S754_zero false))
       (PFloat (S754_zero false)) (PFloat (S754_zero false))
       (PFloat (S754_zero false)) (PFloat (S754_zero false)))
    [Mock.check_request Mock.safe_client]
  /\ (Mock.spawn_origin
       (Mock.scripted [Mock.reply Mock.no_verdict; Mock.reply Mock.ok_reply])
       Mock.safe_client []).2 =
     [Mock.check_request Mock.safe_client;
      @wire_request Mock.builtins Mock.safe_client "spawn_actor"
        (transform_args ("class_path", PStr "/Script/Engine.StaticMeshActor")
           (PFloat (S754_zero false)) (PFloat (S754_zero false))
           (PFloat (S754_zero false)) (PFloat (S754_zero false))
           (PFloat (S754_zero false)) (PFloat (S754_zero false)))].
Proof.
  apply (@spawn_actor_missing_allowed_proceeds Mock.builtins
           (Mock.scripted [Mock.reply Mock.no_verdict;
                           Mock.reply Mock.ok_reply])
           Mock.safe_client "/Script/Engine.StaticMeshActor"
           (PFloat (S754_zero false)) (PFloat (S754_zero false))
           (PFloat (S754_zero false)) (PFloat (S754_zero false))
           (PFloat (S754_zero false)) (PFloat (S754_zero false))
           [] (mkdict [("violations", PList [])])
           [Mock.check_request Mock.safe_client]);
    reflexivity.
Defined.

(** A body that raises while the editor stays reachable: the rollback is
    sent and the body's exception comes out. *)
Lemma transaction_scope_exit_witness :
  Mock.safe_client = Mock.safe_client
  /\ (@with_ Mock.builtins
        (Mock.scripted [Mock.reply Mock.ok_reply; Mock.reply Mock.ok_reply])
        (transaction Mock.safe_client "AgentForge") Mock.failing_body []).2 =
     [@wire_request Mock.builtins Mock.safe_client "begin_transaction"
        (PDict (mkdict [("label", PStr "AgentForge")]));
      @wire_request Mock.builtins Mock.safe_client "undo_transaction" PNone]
  /\ (@with_ Mock.builtins
        (Mock.scripted [Mock.reply Mock.ok_reply; Mock.reply Mock.ok_reply])
        (transaction Mock.safe_client "AgentForge") Mock.failing_body []).1 =
     Raise (Exception "boom").
Proof.
  exact (@transaction_scope_exit Mock.builtins
           (Mock.scripted [Mock.reply Mock.ok_reply; Mock.reply Mock.ok_reply])
           Mock.safe_client "AgentForge" Mock.failing_body []
           Mock.safe_client
           [@wire_request Mock.builtins Mock.safe_client "begin_transaction"
              (PDict (mkdict [("label", PStr "AgentForge")]))]
           eq_refl).
Defined.

(** C3 as stated fails: the body raises [Exception("boom")], the editor
    has gone away by the time the scope exits, and the caller sees the
    [RuntimeError] of the failed [undo_transaction] call instead. *)
Lemma undo_failure_replaces_exception :
  Mock.failing_body Mock.safe_client
    [@wire_request Mock.builtins Mock.safe_client "begin_transaction"
       (PDict (mkdict [("label", PStr "AgentForge")]))] =
  (Raise (Exception "boom"),
   [@wire_request Mock.builtins Mock.safe_client "begin_transaction"
      (PDict (mkdict [("label", PStr "AgentForge")]))])
  /\ (@with_ Mock.builtins (Mock.scripted [Mock.reply Mock.ok_reply])
        (transaction Mock.safe_client "AgentForge") Mock.failing_body []).1 =
     Raise (RuntimeError (cannot_connect Mock.safe_client))
  /\ (@with_ Mock.builtins (Mock.scripted [Mock.reply Mock.ok_reply])
        (transaction Mock.safe_client "AgentForge") Mock.failing_body []).1 <>
     Raise (Exception "boom").
Proof.
  split; [reflexivity|]. split; [reflexivity|].
  vm_compute. discriminate.
Qed.

(** The editor is not running when the scope is entered. *)
Lemma begin_failure_opens_no_scope_witness :
  @with_ Mock.builtins (Mock.failing ConnectionError)
    (transaction Mock.safe_client "AgentForge")
    (Mock.deleting_body (Mock.failing ConnectionError)) [] =
  (Raise (RuntimeError (cannot_connect Mock.safe_client)),
   [@wire_request Mock.builtins Mock.safe_client "begin_transaction"
      (PDict (mkdict [("label", PStr "AgentForge")]))])
  /\ [@wire_request Mock.builtins Mock.safe_client "begin_transaction"
        (PDict (mkdict [("label", PStr "AgentForge")]))] =
     ([] ++ [@wire_request Mock.builtins Mock.safe_client "begin_transaction"
               (PDict (mkdict [("label", PStr "AgentForge")]))])%list.
Proof.
  exact (@begin_failure_opens_no_scope Mock.builtins
           (Mock.failing ConnectionError) Mock.safe_client "AgentForge"
           (Mock.deleting_body (Mock.failing ConnectionError)) []).
Defined.

(** C4 as stated fails: the host refuses the transaction with
    [{"ok": false, "error": ...}], [begin_transaction] returns that failed
    result, and the scope is entered all the same: [end_transaction] is
    sent on exit. *)
Lemma refused_begin_is_not_noticed :
  (@begin_transaction Mock.builtins
     (Mock.scripted [Mock.reply Mock.refused; Mock.reply Mock.ok_reply])
     Mock.safe_client "AgentForge" []).1 =
    Ok {| raw := Mock.refused; ok := PBool false;
          error := PStr "no level is open" |}
  /\ @with_ Mock.builtins
       (Mock.scripted [Mock.reply Mock.refused; Mock.reply Mock.ok_reply])
       (transaction Mock.safe_client "AgentForge") Mock.idle_body [] =
     (Ok tt,
      [@wire_request Mock.builtins Mock.safe_client "begin_transaction"
         (PDict (mkdict [("label", PStr "AgentForge")]));
       @wire_request Mock.builtins Mock.safe_client "end_transaction" PNone]).
Proof.
  split; reflexivity.
Qed.

(** A connect-phase timeout is reported as the editor being unreachable. *)
Lemma send_transport_failure_witness :
  (@_send Mock.builtins (Mock.failing ConnectTimeout) Mock.safe_client
     "ping" PNone []).1 =
  Raise (RuntimeError
    "Cannot connect to Unreal Editor at http://127.0.0.1:30010/remote/object/call. Ensure the editor is running with Remote Control API enabled.").
Proof.
  exact (proj1 (@send_transport_failure Mock.builtins
                  (Mock.failing ConnectTimeout) Mock.safe_client
                  "ping" PNone [] ConnectTimeout eq_refl)).
Defined.

(** C9 as stated fails: the per-call timeout expires while waiting for the
    reply, and what leaves [_send] is the transport's [ReadTimeout], which
    is neither the client's [RuntimeError] nor a [ConnectionError]. *)
Lemma read_timeout_is_not_a_connection_failure :
  isinstance_Timeout ReadTimeout = true
  /\ (@_send Mock.builtins (Mock.failing ReadTimeout) Mock.safe_client
        "ping" PNone []).1 = Raise (Requests ReadTimeout)
  /\ connection_failure Mock.safe_client (Requests ReadTimeout) = false.
Proof.
  repeat split.
Qed.

(** [AgentForgeClient(verify=False)] spawning: one request, the spawn
    itself. *)
Example spawn_actor_fast_client_run :
  (Mock.spawn_origin (Mock.scripted [Mock.reply Mock.ok_reply])
     Mock.fast_client []).2 =
  [@wire_request Mock.builtins Mock.fast_client "spawn_actor"
     (transform_args ("class_path", PStr "/Script/Engine.StaticMeshActor")
        (PFloat (S754_zero false)) (PFloat (S754_zero false))
        (PFloat (S754_zero false)) (PFloat (S754_zero false))
        (PFloat (S754_zero false)) (PFloat (S754_zero false)))].
Proof.
  reflexivity.
Qed.

(** The default client ([verify=True]) deleting an actor: one request, the
    delete itself. *)
Example delete_actor_verified_client_run :
  verify Mock.safe_client = true
  /\ (@delete_actor Mock.builtins (Mock.scripted [Mock.reply Mock.ok_reply])
        Mock.safe_client "Cube_1" []).2 =
     [@wire_request Mock.builtins Mock.safe_client "delete_actor"
        (PDict (mkdict [("label", PStr "Cube_1")]))].
Proof.
  split; reflexivity.
Qed.

(** A scope whose body returns: begin, the body's delete, then the
    commit. *)
Example transaction_commit_run :
  @with_ Mock.builtins
    (Mock.scripted [Mock.reply Mock.ok_reply; Mock.reply Mock.ok_reply;
                    Mock.reply Mock.ok_reply])
    (transaction Mock.safe_client "AgentForge")
    (Mock.deleting_body
       (Mock.scripted [Mock.reply Mock.ok_reply; Mock.reply Mock.ok_reply;
                       Mock.reply Mock.ok_reply])) [] =
  (Ok tt,
   [@wire_request Mock.builtins Mock.safe_client "begin_transaction"
      (PDict (mkdict [("label", PStr "AgentForge")]));
    @wire_request Mock.builtins Mock.safe_client "delete_actor"
      (PDict (mkdict [("label", PStr "Cube_1")]));
    @wire_request Mock.builtins Mock.safe_client "end_transaction" PNone]).
Proof.
  reflexivity.
Qed.

(** A [begin_transaction] the host answers with [{"ok": false}] returns a
    failed [ForgeResult] and raises nothing: [__enter__] drops the result
    and the scope runs to its commit. *)
Example begin_refused_scope_still_commits :
  (@with_ Mock.builtins
     (Mock.scripted [Mock.reply (PDict (mkdict [("ok", PBool false)]));
                     Mock.reply Mock.ok_reply])
     (transaction Mock.safe_client "AgentForge") (fun _ => mret tt) []) =
  (Ok tt,
   [@wire_request Mock.builtins Mock.safe_client "begin_transaction"
      (PDict (mkdict [("label", PStr "AgentForge")]));
    @wire_request Mock.builtins Mock.safe_client "end_transaction" PNone]).
Proof.
  reflexivity.
Qed.

(* ================================================================== *)
(** * Further properties of the client *)

Section MoreProperties.
Context `{PyBuiltins}.
Variable host : host_model.

(** The status test of [raise_for_status], as a proposition. *)
Lemma error_status_test (status : Z) :
  ((400 <=? status) && (status <? 600))%Z = true <-> (400 <= status < 600)%Z.
Proof.
  rewrite andb_true_iff, Z.leb_le, Z.ltb_lt. reflexivity.
Qed.

Lemma app_one_neq {A} (l : list A) (x : A) : (l ++ [x])%list <> l.
Proof.
  intros E. rewrite <- (app_nil_r l) in E at 2.
  apply app_inv_head in E. discriminate.
Qed.

(* ---------------------------------------------------------------- *)
(** *** Transport: what happens after the connection is made *)

(** X1.  A reply with a 4xx or 5xx status makes [_send], and so
    [execute], raise the transport's [HTTPError] for that status: it is
    not turned into the [RuntimeError] of an unreachable editor, and the
    body is never looked at. *)
Theorem http_error_status_propagates self cmd args h r :
  host h (wire_request self cmd args) = PutReturns r ->
  (400 <= status_code r < 600)%Z ->
  _send host self cmd args h =
    (Raise (Requests (HTTPError (status_code r))),
     (h ++ [wire_request self cmd args])%list)
  /\ execute host self cmd args h =
    (Raise (Requests (HTTPError (status_code r))),
     (h ++ [wire_request self cmd args])%list).
Proof.
  intros Hput Hst. apply error_status_test in Hst.
  assert (S : _send host self cmd args h =
    (Raise (Requests (HTTPError (status_code r))),
     (h ++ [wire_request self cmd args])%list)).
  { unfold _send, try_except, session_put; run_M.
    rewrite Hput; simpl. unfold raise_for_status. rewrite Hst. reflexivity. }
  split; [exact S|]. unfold execute; run_M. rewrite S. reflexivity.
Qed.

(** X2.  A reply with a passing status whose body is not JSON makes
    [_send] raise the transport's [JSONDecodeError]: the [{"raw": ...}]
    fallback is for the [ReturnValue] string only, not for the body. *)
Theorem body_not_json_raises self cmd args h r :
  host h (wire_request self cmd args) = PutReturns r ->
  (status_code r < 400 \/ 600 <= status_code r)%Z ->
  json r = NotJSON ->
  _send host self cmd args h =
    (Raise (Requests JSONDecodeError),
     (h ++ [wire_request self cmd args])%list).
Proof.
  intros Hput Hst Hjs.
  assert (T : ((400 <=? status_code r) && (status_code r <? 600))%Z = false).
  { apply not_true_is_false. rewrite error_status_test. lia. }
  unfold _send, try_except, session_put; run_M.
  rewrite Hput; simpl. unfold raise_for_status. rewrite T; simpl.
  unfold resp_json. rewrite Hjs. reflexivity.
Qed.

(** X3.  A reply mapping without a [ReturnValue] entry is returned whole
    by [_send], and [execute] derives its [ForgeResult] from that whole
    body. *)
Theorem reply_without_ReturnValue_is_payload self cmd args h r
    (body : gmap string pyval) :
  host h (wire_request self cmd args) = PutReturns r ->
  (status_code r < 400 \/ 600 <= status_code r)%Z ->
  json r = Decoded (PDict body) ->
  body !! "ReturnValue" = None ->
  _send host self cmd args h =
    (Ok (PDict body), (h ++ [wire_request self cmd args])%list)
  /\ execute host self cmd args h =
    (from_response (PDict body), (h ++ [wire_request self cmd args])%list).
Proof.
  intros Hput Hst Hjs Hrv.
  assert (T : ((400 <=? status_code r) && (status_code r <? 600))%Z = false).
  { apply not_true_is_false. rewrite error_status_test. lia. }
  assert (S : _send host self cmd args h =
    (Ok (PDict body), (h ++ [wire_request self cmd args])%list)).
  { rewrite (_send_reply host self cmd args h r (PDict body) Hput T Hjs).
    unfold decode_body; simpl. rewrite Hrv. reflexivity. }
  split; [exact S|]. unfold execute; run_M. rewrite S. reflexivity.
Qed.

(** X4.  When the host's [ReturnValue] is text that [json.loads] rejects,
    [execute] returns a [ForgeResult] with [ok = True] and no error, the
    text sitting under ["raw"]: undecodable output reads as success. *)
Theorem execute_unparsable_reads_as_success self cmd args h r
    (body : gmap string pyval) (s : string) :
  host h (wire_request self cmd args) = PutReturns r ->
  (status_code r < 400 \/ 600 <= status_code r)%Z ->
  json r = Decoded (PDict body) ->
  body !! "ReturnValue" = Some (PStr s) ->
  json_loads s = NotJSON ->
  execute host self cmd args h =
    (Ok {| raw := PDict (mkdict [("raw", PStr s)]);
           ok := PBool true; error := PNone |},
     (h ++ [wire_request self cmd args])%list).
Proof.
  intros Hput Hst Hjs Hrv Hl.
  assert (T : ((400 <=? status_code r) && (status_code r <? 600))%Z = false).
  { apply not_true_is_false. rewrite error_status_test. lia. }
  unfold execute; run_M.
  rewrite (_send_reply host self cmd args h r (PDict body) Hput T Hjs).
  unfold decode_body; simpl. rewrite Hrv; simpl. rewrite Hl. reflexivity.
Qed.

(** X5.  When the decoded reply is not a mapping (a list, a number, a
    string, [None]), [execute] raises [AttributeError]; the request has
    been sent by then. *)
Theorem execute_non_mapping_reply_raises self cmd args h v h' :
  _send host self cmd args h = (Ok v, h') ->
  (forall d, v <> PDict d) ->
  execute host self cmd args h =
    (Raise (AttributeError "object has no attribute 'get'"), h')
  /\ h' = (h ++ [wire_request self cmd args])%list.
Proof.
  intros Hs Hv. split.
  - unfold execute; run_M. rewrite Hs.
    destruct v; try reflexivity. exfalso. eapply Hv. reflexivity.
  - pose proof (_send_log host self cmd args h) as L.
    rewrite Hs in L. exact L.
Qed.

(* ---------------------------------------------------------------- *)
(** *** Policy gate: the other outcomes of the check *)

(** X6.  With [verify] on, whatever the host does, [spawn_actor] sends its
    [enforce_constitution] check first and at most the spawn command after
    it: never the spawn alone, never a third request. *)
Theorem spawn_actor_check_goes_first self class_path x y z pitch yaw roll h :
  verify self = true ->
  (spawn_actor host self class_path x y z pitch yaw roll h).2 =
    (h ++ [wire_request self "enforce_constitution"
             (PDict (mkdict [("action_description",
                              PStr ("spawn_actor " ++ class_path))]))])%list
  \/ (spawn_actor host self class_path x y z pitch yaw roll h).2 =
    (h ++ [wire_request self "enforce_constitution"
             (PDict (mkdict [("action_description",
                              PStr ("spawn_actor " ++ class_path))]));
           wire_request self "spawn_actor"
             (transform_args ("class_path", PStr class_path)
                x y z pitch yaw roll)])%list.
Proof.
  intros Hv.
  pose proof (_send_log host self "enforce_constitution"
    (PDict (mkdict [("action_description",
                     PStr ("spawn_actor " ++ class_path))])) h) as L.
  unfold spawn_actor. rewrite Hv. unfold enforce_constitution. run_M.
  destruct (_send host self "enforce_constitution" _ h) as [[chk|e] h'];
    simpl in L; subst h'; [|left; reflexivity].
  destruct chk; simpl; try (left; reflexivity).
  destruct (truthy (default (PBool true) (d !! "allowed"))); simpl.
  - right. rewrite execute_log, <- app_assoc. reflexivity.
  - left. reflexivity.
Qed.

(** X7.  With [verify] on, when the check does not come back as a mapping
    (the call raises, or the decoded reply is a list, a string, a number or
    [None]), [spawn_actor] raises (the check's exception, or
    [AttributeError]) and the spawn command is not sent. *)
Theorem spawn_actor_unusable_check_sends_no_spawn
    self class_path x y z pitch yaw roll h :
  verify self = true ->
  match (enforce_constitution host self ("spawn_actor " ++ class_path) h).1
  with
  | Ok (PDict _) => False
  | _ => True
  end ->
  (spawn_actor host self class_path x y z pitch yaw roll h).1 =
    match (enforce_constitution host self ("spawn_actor " ++ class_path) h).1
    with
    | Raise e => Raise e
    | Ok _ => Raise (AttributeError "object has no attribute 'get'")
    end
  /\ (spawn_actor host self class_path x y z pitch yaw roll h).2 =
    (h ++ [wire_request self "enforce_constitution"
             (PDict (mkdict [("action_description",
                              PStr ("spawn_actor " ++ class_path))]))])%list.
Proof.
  intros Hv Hbad.
  pose proof (_send_log host self "enforce_constitution"
    (PDict (mkdict [("action_description",
                     PStr ("spawn_actor " ++ class_path))])) h) as L.
  unfold spawn_actor. rewrite Hv. unfold enforce_constitution in *. run_M.
  destruct (_send host self "enforce_constitution" _ h) as [[chk|e] h'];
    simpl in *; subst h'; [|split; reflexivity].
  destruct chk; simpl in *; try (split; reflexivity). contradiction.
Qed.

(** X8.  With [verify] on, when the host answers the check with text that
    [json.loads] rejects, the check's result is [{"raw": ...}], which has
    no ["allowed"] entry: [spawn_actor] goes on to send the spawn
    command. *)
Theorem spawn_actor_unparsable_check_proceeds
    self class_path x y z pitch yaw roll h r (body : gmap string pyval) s :
  verify self = true ->
  host h (wire_request self "enforce_constitution"
            (PDict (mkdict [("action_description",
                             PStr ("spawn_actor " ++ class_path))])))
    = PutReturns r ->
  (status_code r < 400 \/ 600 <= status_code r)%Z ->
  json r = Decoded (PDict body) ->
  body !! "ReturnValue" = Some (PStr s) ->
  json_loads s = NotJSON ->
  spawn_actor host self class_path x y z pitch yaw roll h =
    execute host self "spawn_actor"
      (transform_args ("class_path", PStr class_path) x y z pitch yaw roll)
      (h ++ [wire_request self "enforce_constitution"
               (PDict (mkdict [("action_description",
                                PStr ("spawn_actor " ++ class_path))]))])%list.
Proof.
  intros Hv Hput Hst Hjs Hrv Hl.
  assert (T : ((400 <=? status_code r) && (status_code r <? 600))%Z = false).
  { apply not_true_is_false. rewrite error_status_test. lia. }
  rewrite (spawn_actor_verified host self class_path x y z pitch yaw roll h
             (mkdict [("raw", PStr s)])
             (h ++ [wire_request self "enforce_constitution"
                      (PDict (mkdict [("action_description",
                                       PStr ("spawn_actor " ++ class_path))]))])
             Hv).
  - reflexivity.
  - unfold enforce_constitution.
    rewrite (_send_reply host self _ _ h r (PDict body) Hput T Hjs).
    unfold decode_body; simpl. rewrite Hrv; simpl. rewrite Hl. reflexivity.
Qed.

(** X9.  With [verify] on and a mapping for the check's reply, the spawn
    command is withheld exactly when the reply has an ["allowed"] entry
    that is false in the language's sense ([False], [None], [0], an empty
    string or container), and then [PermissionError] is raised; any other
    entry, a non-empty string included, lets the spawn through. *)
Theorem spawn_actor_blocked_iff_allowed_falsy
    self class_path x y z pitch yaw roll h d h' :
  verify self = true ->
  enforce_constitution host self ("spawn_actor " ++ class_path) h
    = (Ok (PDict d), h') ->
  ((spawn_actor host self class_path x y z pitch yaw roll h).2 = h'
   <-> exists a, d !! "allowed" = Some a /\ truthy a = false)
  /\ ((spawn_actor host self class_path x y z pitch yaw roll h).2 = h'
      -> (spawn_actor host self class_path x y z pitch yaw roll h).1 =
         Raise (PermissionError
                  ("Constitution blocked spawn_actor: "
                   ++ py_str (default PNone (d !! "violations"))))).
Proof.
  intros Hv Hchk.
  rewrite (spawn_actor_verified host _ _ x y z pitch yaw roll _ _ _ Hv Hchk).
  destruct (d !! "allowed") as [a|] eqn:Ha; simpl.
  - destruct (truthy a) eqn:Ta.
    + rewrite execute_log. split.
      * split; [intros E; exfalso; exact (app_one_neq _ _ E)|].
        intros (a' & Ea & Fa). congruence.
      * intros E; exfalso; exact (app_one_neq _ _ E).
    + simpl. split; [|reflexivity].
      split; [intros _; exists a; auto | reflexivity].
  - rewrite execute_log. split.
    + split; [intros E; exfalso; exact (app_one_neq _ _ E)|].
      intros (a' & Ea & _). discriminate.
    + intros E; exfalso; exact (app_one_neq _ _ E).
Qed.

(* ---------------------------------------------------------------- *)
(** *** Verification runner and observation *)

(** X10.  When the host's [ReturnValue] to [run_verification] is text that
    [json.loads] rejects, the report is the failed, empty one:
    [all_passed = False], [phases_run = 0], no details.  Missing fields
    never read as a pass. *)
Theorem run_verification_unparsable_fails_closed self phase_mask h r
    (body : gmap string pyval) s :
  host h (wire_request self "run_verification"
            (PDict (mkdict [("phase_mask", PInt phase_mask)])))
    = PutReturns r ->
  (status_code r < 400 \/ 600 <= status_code r)%Z ->
  json r = Decoded (PDict body) ->
  body !! "ReturnValue" = Some (PStr s) ->
  json_loads s = NotJSON ->
  run_verification host self phase_mask h =
    (Ok {| all_passed := PBool false; phases_run := PInt 0;
           details := PList [] |},
     (h ++ [wire_request self "run_verification"
              (PDict (mkdict [("phase_mask", PInt phase_mask)]))])%list).
Proof.
  intros Hput Hst Hjs Hrv Hl.
  assert (T : ((400 <=? status_code r) && (status_code r <? 600))%Z = false).
  { apply not_true_is_false. rewrite error_status_test. lia. }
  unfold run_verification; run_M.
  rewrite (_send_reply host self _ _ h r (PDict body) Hput T Hjs).
  unfold decode_body; simpl. rewrite Hrv; simpl. rewrite Hl. reflexivity.
Qed.

(** X11.  When the host's [ReturnValue] decodes to a mapping without an
    ["actors"] entry (an error reply, for one), [get_all_level_actors]
    returns the empty list: the caller cannot tell it from an empty
    level.  [get_actor_components] does the same for ["components"]. *)
Theorem actor_queries_default_to_empty self label h h' d :
  (_send host self "get_all_level_actors" PNone h = (Ok (PDict d), h') ->
   d !! "actors" = None ->
   get_all_level_actors host self h = (Ok (PList []), h'))
  /\ (_send host self "get_actor_components"
        (PDict (mkdict [("label", PStr label)])) h = (Ok (PDict d), h') ->
      d !! "components" = None ->
      get_actor_components host self label h = (Ok (PList []), h')).
Proof.
  split; intros Hs Hk.
  - unfold get_all_level_actors; run_M. rewrite Hs; simpl. rewrite Hk.
    reflexivity.
  - unfold get_actor_components; run_M. rewrite Hs; simpl. rewrite Hk.
    reflexivity.
Qed.

(** X12.  For a reply mapping, [from_response] never raises, keeps the
    mapping as [raw], and yields a true [ok] exactly when the reply has no
    error other than [None] and its ["ok"] entry, if any, is true in the
    language's sense.  An error of [""] or [0] still forces [ok = False]. *)
Theorem result_ok_iff (d : gmap string pyval) :
  exists res,
    from_response (PDict d) = Ok res
    /\ raw res = PDict d
    /\ error res = default PNone (d !! "error")
    /\ (truthy (ok res) = true <->
        (d !! "error" = None \/ d !! "error" = Some PNone)
        /\ truthy (default (PBool true) (d !! "ok")) = true).
Proof.
  unfold from_response; simpl.
  destruct (d !! "error") as [e|] eqn:He; simpl.
  - destruct e; simpl; eexists; (split; [reflexivity|]); simpl;
      (split; [reflexivity|]); (split; [reflexivity|]);
      try (split; [discriminate | intros [[?|?] _]; congruence]).
    split; [intros T; split; [right; reflexivity | exact T] | intros [_ T]; exact T].
  - eexists; split; [reflexivity|]; simpl. split; [reflexivity|].
    split; [reflexivity|].
    split; [intros T; split; [left; reflexivity | exact T] | intros [_ T]; exact T].
Qed.

(* ---------------------------------------------------------------- *)
(** *** Transaction scope: composition *)

(** X13.  A [with client.transaction(...)] statement completes normally
    only if [begin_transaction] returned, the body returned, and
    [end_transaction] returned: no exception from any of the three is
    swallowed. *)
Theorem transaction_completes_only_if_all_returned self label
    (body : AgentForgeClient -> M unit) h :
  (with_ host (transaction self label) body h).1 = Ok tt ->
  exists r h1 h2 r',
    begin_transaction host self label h = (Ok r, h1)
    /\ body self h1 = (Ok tt, h2)
    /\ end_transaction host self h2 =
       (Ok r', (with_ host (transaction self label) body h).2).
Proof.
  unfold with_, __enter__, __exit__; run_M; simpl.
  destruct (begin_transaction host self label h) as [[r|e] h1] eqn:Eb; simpl;
    [|discriminate].
  destruct (body self h1) as [[[]|e] h2] eqn:Ebody.
  - destruct (end_transaction host self h2) as [[r'|e'] h3] eqn:Ee; simpl;
      [|discriminate].
    intros _. exists r, h1, h2, r'. auto.
  - destruct (undo_transaction host self h2) as [[r'|e'] h3]; simpl;
      discriminate.
Qed.

(** X14.  Once [begin_transaction] has returned, whatever its
    [ForgeResult] says (a reply with [ok: false] included), the scope is
    entered: the requests of a body that adds [t] to the log are bracketed
    by [begin_transaction] before and by one [end_transaction] or
    [undo_transaction] after. *)
Theorem transaction_brackets_body self label
    (body : AgentForgeClient -> M unit) h r h1 res t :
  begin_transaction host self label h = (Ok r, h1) ->
  body self h1 = (res, (h1 ++ t)%list) ->
  (with_ host (transaction self label) body h).2 =
    (h ++ [wire_request self "begin_transaction"
             (PDict (mkdict [("label", PStr label)]))]
       ++ t
       ++ [wire_request self
             (if res is Ok _ then "end_transaction" else "undo_transaction")
             PNone])%list.
Proof.
  intros Hb Hbody.
  pose proof (execute_log host self "begin_transaction"
    (PDict (mkdict [("label", PStr label)])) h) as L.
  unfold begin_transaction in Hb. rewrite Hb in L. simpl in L.
  assert (En : __enter__ host (transaction self label) h = (Ok self, h1)).
  { unfold __enter__, begin_transaction; run_M; simpl. rewrite Hb.
    reflexivity. }
  unfold with_. rewrite En, Hbody.
  destruct res as [[]|e].
  - pose proof (__exit___log host (transaction self label) None
                  (h1 ++ t)%list) as X.
    destruct (__exit__ host (transaction self label) None (h1 ++ t)%list)
      as [[v|e'] h3]; simpl in *; subst; rewrite <- !app_assoc; reflexivity.
  - pose proof (__exit___log host (transaction self label) (Some e)
                  (h1 ++ t)%list) as X.
    destruct (__exit__ host (transaction self label) (Some e) (h1 ++ t)%list)
      as [[v|e'] h3]; simpl in *; subst; [destruct (truthy v)|];
      rewrite <- !app_assoc; reflexivity.
Qed.

(** X15.  A [spawn_actor] the policy denies inside a transaction scope
    rolls the scope back: the requests are [begin_transaction], the check
    and [undo_transaction], the spawn and the commit are never sent, and
    when the rollback call returns the caller gets the
    [PermissionError]. *)
Theorem denied_spawn_in_scope_rolls_back
    self label class_path x y z pitch yaw roll h r h1 d h2 r' h3 :
  verify self = true ->
  begin_transaction host self label h = (Ok r, h1) ->
  enforce_constitution host self ("spawn_actor " ++ class_path) h1
    = (Ok (PDict d), h2) ->
  d !! "allowed" = Some (PBool false) ->
  undo_transaction host self h2 = (Ok r', h3) ->
  with_ host (transaction self label)
    (fun c => _ ← spawn_actor host c class_path x y z pitch yaw roll; mret tt)
    h =
  (Raise (PermissionError
            ("Constitution blocked spawn_actor: "
             ++ py_str (default PNone (d !! "violations")))),
   (h ++ [wire_request self "begin_transaction"
            (PDict (mkdict [("label", PStr label)]));
          wire_request self "enforce_constitution"
            (PDict (mkdict [("action_description",
                             PStr ("spawn_actor " ++ class_path))]));
          wire_request self "undo_transaction" PNone])%list).
Proof.
  intros Hv Hb Hchk Hal Hu.
  pose proof (execute_log host self "begin_transaction"
    (PDict (mkdict [("label", PStr label)])) h) as L1.
  unfold begin_transaction in Hb. rewrite Hb in L1. simpl in L1.
  pose proof (_send_log host self "enforce_constitution"
    (PDict (mkdict [("action_description",
                     PStr ("spawn_actor " ++ class_path))])) h1) as L2.
  unfold enforce_constitution in Hchk. rewrite Hchk in L2. simpl in L2.
  pose proof (execute_log host self "undo_transaction" PNone h2) as L3.
  unfold undo_transaction in Hu. rewrite Hu in L3. simpl in L3.
  pose proof (spawn_actor_verified host self class_path x y z pitch yaw roll
                h1 d h2 Hv Hchk) as S.
  rewrite Hal in S; simpl in S.
  unfold with_, __enter__, __exit__; run_M; simpl.
  unfold begin_transaction. rewrite Hb. rewrite S.
  unfold undo_transaction. rewrite Hu; simpl.
  subst h3 h2 h1. rewrite <- !app_assoc. reflexivity.
Qed.

(* ---------------------------------------------------------------- *)
(** *** Optional arguments *)

(** X16.  [set_material_params] always sends ["instance_path"], and sends
    ["scalar_params"] / ["vector_params"] only when the argument is
    non-empty: [None] and an empty dict both leave the key out. *)
Theorem set_material_params_omits_empty self instance_path
    (scalar_params vector_params : pyval) :
  exists args : gmap string pyval,
    set_material_params host self instance_path scalar_params vector_params =
      execute host self "set_material_params" (PDict args)
    /\ args !! "instance_path" = Some (PStr instance_path)
    /\ args !! "scalar_params" =
       (if truthy scalar_params then Some scalar_params else None)
    /\ args !! "vector_params" =
       (if truthy vector_params then Some vector_params else None).
Proof.
  unfold set_material_params.
  destruct (truthy scalar_params), (truthy vector_params);
    eexists; (split; [reflexivity|]); repeat split; reflexivity.
Qed.
End MoreProperties.

(* ------------------------------------------------------------------ *)
(** ** The report text *)

Section SummaryProperties.
Context `{PyBuiltins} `{PyFormat}.

Lemma summary_lines_None (ds : list pyval) :
  summary_lines ds = None <-> Exists (fun d => summary_line d = None) ds.
Proof.
  induction ds as [|d ds IH]; simpl.
  - split; [discriminate | intros E; inversion E].
  - destruct (summary_line d) as [l|] eqn:Hl; simpl.
    + destruct (summary_lines ds) as [ls|]; simpl.
      * split; [discriminate|]. intros E. inversion E; subst; [congruence|].
        apply IH in H2. discriminate.
      * split; [|reflexivity]. intros _. right. apply IH. reflexivity.
    + split; [|reflexivity]. intros _. left. exact Hl.
Qed.

Lemma summary_line_None (d : pyval) :
  summary_line d = None <->
  match d with
  | PDict m => fixed_formattable (default (PInt 0) (m !! "duration_ms")) = false
  | _ => True
  end.
Proof.
  destruct d; simpl; try tauto. unfold format_fixed1.
  destruct (fixed_formattable (default (PInt 0) (d !! "duration_ms"))); simpl;
    split; auto; discriminate.
Qed.

(** X17.  For a report whose details are a list, [summary] raises exactly
    when some detail is not a mapping or has a ["duration_ms"] that cannot
    be formatted as a number; one such detail is enough to lose the whole
    text.  A detail without ["duration_ms"], ["phase"], ["detail"] or
    ["passed"] is rendered from the defaults. *)
Theorem summary_raises_iff (self : VerificationReport) (ds : list pyval) :
  details self = PList ds ->
  (summary self = None <->
   Exists (fun d =>
             match d with
             | PDict m =>
               fixed_formattable (default (PInt 0) (m !! "duration_ms"))
               = false
             | _ => True
             end) ds).
Proof.
  intros Hd. unfold summary. rewrite Hd; simpl.
  rewrite Exists_exists.
  destruct (summary_lines ds) as [ls|] eqn:E; simpl.
  - split; [discriminate|]. intros (d & Hin & Hbad).
    assert (X : summary_lines ds = None).
    { apply summary_lines_None, Exists_exists. exists d. split; [exact Hin|].
      apply summary_line_None. exact Hbad. }
    congruence.
  - split; [|reflexivity]. intros _.
    apply summary_lines_None, Exists_exists in E. destruct E as (d & Hin & Hl).
    exists d. split; [exact Hin|]. apply summary_line_None. exact Hl.
Qed.

Lemma append_assoc_r (a b c : string) : (a ++ b) ++ c = a ++ (b ++ c).
Proof.
  induction a as [|ch a IH]; [reflexivity|].
  change (String ch ((a ++ b) ++ c) = String ch (a ++ (b ++ c))).
  rewrite IH. reflexivity.
Qed.

(** X18.  Whenever [summary] returns, its text starts with the verdict and
    the phase count as the report holds them: PASSED or FAILED by
    [all_passed] alone, and [phases_run] as given.  Neither is recomputed
    from the details, which follow on lines of their own. *)
Theorem summary_headline (self : VerificationReport) (text : string) :
  summary self = Some text ->
  exists rest,
    text = "Verification: "
           ++ (if truthy (all_passed self) then "PASSED" else "FAILED")
           ++ " (" ++ py_str (phases_run self) ++ " phases)" ++ rest
    /\ (rest = "" \/ exists lines, rest = newline ++ lines).
Proof.
  intros Hs. unfold summary, mbind, option_bind in Hs.
  destruct (py_iter (details self)) as [ds|]; [|discriminate Hs].
  destruct (summary_lines ds) as [ls|]; [|discriminate Hs].
  injection Hs as <-. destruct ls as [|l ls].
  - exists "". split; [reflexivity | left; reflexivity].
  - exists (newline ++ String.concat newline (l :: ls)).
    split; [|right; eexists; reflexivity].
    unfold summary_header. rewrite !append_assoc_r. reflexivity.
Qed.
End SummaryProperties.

(* ------------------------------------------------------------------ *)
(** ** The further properties on concrete runs *)

Lemma http_error_status_propagates_witness :
  @_send Mock.builtins (Mock.scripted [Mock.status_reply 500])
    Mock.safe_client "ping" PNone [] =
    (Raise (Requests (HTTPError 500)), [Mock.sent "ping" PNone])
  /\ @execute Mock.builtins (Mock.scripted [Mock.status_reply 500])
      Mock.safe_client "ping" PNone [] =
    (Raise (Requests (HTTPError 500)), [Mock.sent "ping" PNone]).
Proof.
  apply (@http_error_status_propagates Mock.builtins
           (Mock.scripted [Mock.status_reply 500]) Mock.safe_client
           "ping" PNone [] {| status_code := 500; json := NotJSON |});
    [reflexivity | simpl; lia].
Defined.

Lemma body_not_json_raises_witness :
  @_send Mock.builtins (Mock.scripted [Mock.status_reply 204])
    Mock.safe_client "ping" PNone [] =
    (Raise (Requests JSONDecodeError), [Mock.sent "ping" PNone]).
Proof.
  apply (@body_not_json_raises Mock.builtins
           (Mock.scripted [Mock.status_reply 204]) Mock.safe_client
           "ping" PNone [] {| status_code := 204; json := NotJSON |});
    [reflexivity | simpl; lia | reflexivity].
Defined.

Lemma reply_without_ReturnValue_is_payload_witness :
  @_send Mock.builtins
    (Mock.scripted [Mock.body_reply
       (PDict (mkdict [("errorMessage", PStr "Object does not exist.")]))])
    Mock.safe_client "ping" PNone [] =
    (Ok (PDict (mkdict [("errorMessage", PStr "Object does not exist.")])),
     [Mock.sent "ping" PNone])
  /\ @execute Mock.builtins
      (Mock.scripted [Mock.body_reply
         (PDict (mkdict [("errorMessage", PStr "Object does not exist.")]))])
      Mock.safe_client "ping" PNone [] =
    (from_response
       (PDict (mkdict [("errorMessage", PStr "Object does not exist.")])),
     [Mock.sent "ping" PNone]).
Proof.
  apply (@reply_without_ReturnValue_is_payload Mock.builtins
           (Mock.scripted [Mock.body_reply
              (PDict (mkdict [("errorMessage",
                               PStr "Object does not exist.")]))])
           Mock.safe_client "ping" PNone []
           {| status_code := 200;
              json := Decoded (PDict (mkdict [("errorMessage",
                                            PStr "Object does not exist.")])) |}
           (mkdict [("errorMessage", PStr "Object does not exist.")]));
    [reflexivity | simpl; lia | reflexivity | reflexivity].
Defined.

Lemma execute_unparsable_reads_as_success_witness :
  @execute Mock.builtins (Mock.scripted [Mock.reply (PStr "Internal error")])
    Mock.safe_client "delete_actor"
    (PDict (mkdict [("label", PStr "Cube_1")])) [] =
  (Ok {| raw := PDict (mkdict [("raw", PStr "Internal error")]);
         ok := PBool true; error := PNone |},
   [Mock.sent "delete_actor" (PDict (mkdict [("label", PStr "Cube_1")]))]).
Proof.
  apply (@execute_unparsable_reads_as_success Mock.builtins
           (Mock.scripted [Mock.reply (PStr "Internal error")])
           Mock.safe_client "delete_actor"
           (PDict (mkdict [("label", PStr "Cube_1")])) []
           {| status_code := 200;
              json := Decoded (PDict (mkdict [("ReturnValue",
                                            PStr "Internal error")])) |}
           (mkdict [("ReturnValue", PStr "Internal error")]));
    [reflexivity | simpl; lia | reflexivity | reflexivity | reflexivity].
Defined.

Lemma execute_non_mapping_reply_raises_witness :
  @execute Mock.builtins (Mock.scripted [Mock.reply (PStr "[]")])
    Mock.safe_client "ping" PNone [] =
    (Raise (AttributeError "object has no attribute 'get'"),
     [Mock.sent "ping" PNone])
  /\ [Mock.sent "ping" PNone] = ([] ++ [Mock.sent "ping" PNone])%list.
Proof.
  apply (@execute_non_mapping_reply_raises Mock.builtins
           (Mock.scripted [Mock.reply (PStr "[]")])
           Mock.safe_client "ping" PNone [] (PList []));
    [reflexivity | intros d; discriminate].
Defined.

Lemma spawn_actor_check_goes_first_witness :
  (Mock.spawn_origin (Mock.scripted [Mock.reply Mock.denied])
     Mock.safe_client []).2 = [Mock.check_request Mock.safe_client]
  \/ (Mock.spawn_origin (Mock.scripted [Mock.reply Mock.denied])
        Mock.safe_client []).2 =
     [Mock.check_request Mock.safe_client;
      Mock.sent "spawn_actor" Mock.origin_args].
Proof.
  exact (@spawn_actor_check_goes_first Mock.builtins
           (Mock.scripted [Mock.reply Mock.denied]) Mock.safe_client
           "/Script/Engine.StaticMeshActor"
           (PFloat (S754_zero false)) (PFloat (S754_zero false))
           (PFloat (S754_zero false)) (PFloat (S754_zero false))
           (PFloat (S754_zero false)) (PFloat (S754_zero false))
           [] eq_refl).
Defined.

(** The editor is unreachable when the check is made. *)
Lemma spawn_actor_unusable_check_sends_no_spawn_witness :
  (Mock.spawn_origin (Mock.failing ConnectionError) Mock.safe_client []).1 =
    Raise (RuntimeError (cannot_connect Mock.safe_client))
  /\ (Mock.spawn_origin (Mock.failing ConnectionError)
        Mock.safe_client []).2 = [Mock.check_request Mock.safe_client].
Proof.
  exact (@spawn_actor_unusable_check_sends_no_spawn Mock.builtins
           (Mock.failing ConnectionError) Mock.safe_client
           "/Script/Engine.StaticMeshActor"
           (PFloat (S754_zero false)) (PFloat (S754_zero false))
           (PFloat (S754_zero false)) (PFloat (S754_zero false))
           (PFloat (S754_zero false)) (PFloat (S754_zero false))
           [] eq_refl I).
Defined.

Lemma spawn_actor_unparsable_check_proceeds_witness :
  Mock.spawn_origin
    (Mock.scripted [Mock.reply (PStr "Internal error");
                    Mock.reply Mock.ok_reply])
    Mock.safe_client [] =
  @execute Mock.builtins
    (Mock.scripted [Mock.reply (PStr "Internal error");
                    Mock.reply Mock.ok_reply])
    Mock.safe_client "spawn_actor" Mock.origin_args
    [Mock.check_request Mock.safe_client].
Proof.
  apply (@spawn_actor_unparsable_check_proceeds Mock.builtins
           (Mock.scripted [Mock.reply (PStr "Internal error");
                           Mock.reply Mock.ok_reply])
           Mock.safe_client "/Script/Engine.StaticMeshActor"
           (PFloat (S754_zero false)) (PFloat (S754_zero false))
           (PFloat (S754_zero false)) (PFloat (S754_zero false))
           (PFloat (S754_zero false)) (PFloat (S754_zero false))
           []
           {| status_code := 200;
              json := Decoded (PDict (mkdict [("ReturnValue",
                                            PStr "Internal error")])) |}
           (mkdict [("ReturnValue", PStr "Internal error")])
           "Internal error");
    [reflexivity | reflexivity | simpl; lia | reflexivity | reflexivity
    | reflexivity].
Defined.

(** A check answered with [{"allowed": null}]: the spawn is withheld. *)
Lemma spawn_actor_blocked_iff_allowed_falsy_witness :
  ((Mock.spawn_origin
      (Mock.scripted [Mock.reply (PDict (mkdict [("allowed", PNone)]))])
      Mock.safe_client []).2 = [Mock.check_request Mock.safe_client]
   <-> exists a, mkdict [("allowed", PNone)] !! "allowed" = Some a
                 /\ truthy a = false)
  /\ ((Mock.spawn_origin
         (Mock.scripted [Mock.reply (PDict (mkdict [("allowed", PNone)]))])
         Mock.safe_client []).2 = [Mock.check_request Mock.safe_client]
      -> (Mock.spawn_origin
            (Mock.scripted [Mock.reply (PDict (mkdict [("allowed", PNone)]))])
            Mock.safe_client []).1 =
         Raise (PermissionError "Constitution blocked spawn_actor: None")).
Proof.
  apply (@spawn_actor_blocked_iff_allowed_falsy Mock.builtins
           (Mock.scripted [Mock.reply (PDict (mkdict [("allowed", PNone)]))])
           Mock.safe_client "/Script/Engine.StaticMeshActor"
           (PFloat (S754_zero false)) (PFloat (S754_zero false))
           (PFloat (S754_zero false)) (PFloat (S754_zero false))
           (PFloat (S754_zero false)) (PFloat (S754_zero false))
           [] (mkdict [("allowed", PNone)])
           [Mock.check_request Mock.safe_client]);
    reflexivity.
Defined.

Lemma run_verification_unparsable_fails_closed_witness :
  @run_verification Mock.builtins
    (Mock.scripted [Mock.reply (PStr "Internal error")])
    Mock.safe_client 15 [] =
  (Ok {| all_passed := PBool false; phases_run := PInt 0;
         details := PList [] |},
   [Mock.sent "run_verification"
      (PDict (mkdict [("phase_mask", PInt 15)]))]).
Proof.
  apply (@run_verification_unparsable_fails_closed Mock.builtins
           (Mock.scripted [Mock.reply (PStr "Internal error")])
           Mock.safe_client 15 []
           {| status_code := 200;
              json := Decoded (PDict (mkdict [("ReturnValue",
                                            PStr "Internal error")])) |}
           (mkdict [("ReturnValue", PStr "Internal error")])
           "Internal error");
    [reflexivity | simpl; lia | reflexivity | reflexivity | reflexivity].
Defined.

(** An error reply to the actor listing. *)
Lemma actor_queries_default_to_empty_witness :
  @get_all_level_actors Mock.builtins
    (Mock.scripted [Mock.reply (PDict (mkdict [("error", PStr "no level")]))])
    Mock.safe_client [] =
  (Ok (PList []), [Mock.sent "get_all_level_actors" PNone]).
Proof.
  apply (proj1 (@actor_queries_default_to_empty Mock.builtins
                  (Mock.scripted
                     [Mock.reply (PDict (mkdict [("error",
                                                  PStr "no level")]))])
                  Mock.safe_client "Cube_1" []
                  [Mock.sent "get_all_level_actors" PNone]
                  (mkdict [("error", PStr "no level")])));
    reflexivity.
Defined.

Lemma transaction_completes_only_if_all_returned_witness :
  exists r h1 h2 r',
    @begin_transaction Mock.builtins
      (Mock.scripted [Mock.reply Mock.ok_reply; Mock.reply Mock.ok_reply;
                      Mock.reply Mock.ok_reply])
      Mock.safe_client "AgentForge" [] = (Ok r, h1)
    /\ Mock.deleting_body
         (Mock.scripted [Mock.reply Mock.ok_reply; Mock.reply Mock.ok_reply;
                         Mock.reply Mock.ok_reply])
         Mock.safe_client h1 = (Ok tt, h2)
    /\ @end_transaction Mock.builtins
         (Mock.scripted [Mock.reply Mock.ok_reply; Mock.reply Mock.ok_reply;
                         Mock.reply Mock.ok_reply])
         Mock.safe_client h2 =
       (Ok r',
        (@with_ Mock.builtins
           (Mock.scripted [Mock.reply Mock.ok_reply; Mock.reply Mock.ok_reply;
                           Mock.reply Mock.ok_reply])
           (transaction Mock.safe_client "AgentForge")
           (Mock.deleting_body
              (Mock.scripted [Mock.reply Mock.ok_reply;
                              Mock.reply Mock.ok_reply;
                              Mock.reply Mock.ok_reply])) []).2).
Proof.
  apply (@transaction_completes_only_if_all_returned Mock.builtins
           (Mock.scripted [Mock.reply Mock.ok_reply; Mock.reply Mock.ok_reply;
                           Mock.reply Mock.ok_reply])
           Mock.safe_client "AgentForge"
           (Mock.deleting_body
              (Mock.scripted [Mock.reply Mock.ok_reply;
                              Mock.reply Mock.ok_reply;
                              Mock.reply Mock.ok_reply])) []).
  reflexivity.
Defined.

(** The host refuses the transaction; the scope runs all the same. *)
Lemma transaction_brackets_body_witness :
  (@with_ Mock.builtins
     (Mock.scripted [Mock.reply (PDict (mkdict [("ok", PBool false)]));
                     Mock.reply Mock.ok_reply; Mock.reply Mock.ok_reply])
     (transaction Mock.safe_client "AgentForge")
     (Mock.deleting_body
        (Mock.scripted [Mock.reply (PDict (mkdict [("ok", PBool false)]));
                        Mock.reply Mock.ok_reply; Mock.reply Mock.ok_reply]))
     []).2 =
  ([] ++ [Mock.sent "begin_transaction"
            (PDict (mkdict [("label", PStr "AgentForge")]))]
      ++ [Mock.sent "delete_actor" (PDict (mkdict [("label", PStr "Cube_1")]))]
      ++ [Mock.sent "end_transaction" PNone])%list.
Proof.
  apply (@transaction_brackets_body Mock.builtins
           (Mock.scripted [Mock.reply (PDict (mkdict [("ok", PBool false)]));
                           Mock.reply Mock.ok_reply; Mock.reply Mock.ok_reply])
           Mock.safe_client "AgentForge"
           (Mock.deleting_body
              (Mock.scripted
                 [Mock.reply (PDict (mkdict [("ok", PBool false)]));
                  Mock.reply Mock.ok_reply; Mock.reply Mock.ok_reply]))
           []
           {| raw := PDict (mkdict [("ok", PBool false)]);
              ok := PBool false; error := PNone |}
           [Mock.sent "begin_transaction"
              (PDict (mkdict [("label", PStr "AgentForge")]))]
           (Ok tt)
           [Mock.sent "delete_actor"
              (PDict (mkdict [("label", PStr "Cube_1")]))]);
    reflexivity.
Defined.

Lemma denied_spawn_in_scope_rolls_back_witness :
  @with_ Mock.builtins
    (Mock.scripted [Mock.reply Mock.ok_reply; Mock.reply Mock.denied;
                    Mock.reply Mock.ok_reply])
    (transaction Mock.safe_client "AgentForge")
    (Mock.spawning_body
       (Mock.scripted [Mock.reply Mock.ok_reply; Mock.reply Mock.denied;
                       Mock.reply Mock.ok_reply])) [] =
  (Raise (PermissionError
            "Constitution blocked spawn_actor: ['no spawning']"),
   [Mock.sent "begin_transaction"
      (PDict (mkdict [("label", PStr "AgentForge")]));
    Mock.check_request Mock.safe_client;
    Mock.sent "undo_transaction" PNone]).
Proof.
  apply (@denied_spawn_in_scope_rolls_back Mock.builtins
           (Mock.scripted [Mock.reply Mock.ok_reply; Mock.reply Mock.denied;
                           Mock.reply Mock.ok_reply])
           Mock.safe_client "AgentForge" "/Script/Engine.StaticMeshActor"
           (PFloat (S754_zero false)) (PFloat (S754_zero false))
           (PFloat (S754_zero false)) (PFloat (S754_zero false))
           (PFloat (S754_zero false)) (PFloat (S754_zero false))
           []
           {| raw := Mock.ok_reply; ok := PBool true; error := PNone |}
           [Mock.sent "begin_transaction"
              (PDict (mkdict [("label", PStr "AgentForge")]))]
           (mkdict [("allowed", PBool false);
                    ("violations", PList [PStr "no spawning"])])
           [Mock.sent "begin_transaction"
              (PDict (mkdict [("label", PStr "AgentForge")]));
            Mock.check_request Mock.safe_client]
           {| raw := Mock.ok_reply; ok := PBool true; error := PNone |}
           [Mock.sent "begin_transaction"
              (PDict (mkdict [("label", PStr "AgentForge")]));
            Mock.check_request Mock.safe_client;
            Mock.sent "undo_transaction" PNone]);
    reflexivity.
Defined.

Lemma summary_raises_iff_witness :
  @summary Mock.builtins Mock.formats Mock.bad_duration_report = None <->
  Exists (fun d =>
            match d with
            | PDict m =>
              fixed_formattable (default (PInt 0) (m !! "duration_ms"))
              = false
            | _ => True
            end)
    [PDict (mkdict [("phase", PStr "PreFlight");
                    ("duration_ms", PStr "2ms")])].
Proof.
  apply (@summary_raises_iff Mock.builtins Mock.formats
           Mock.bad_duration_report).
  reflexivity.
Defined.

Lemma summary_headline_witness :
  exists rest,
    "Verification: PASSED (1 phases)" ++ newline
      ++ "  ✓ [PreFlight] ok (2.0ms)" =
    "Verification: "
      ++ (if truthy (all_passed Mock.one_phase_report)
          then "PASSED" else "FAILED")
      ++ " (" ++ Mock.str (phases_run Mock.one_phase_report) ++ " phases)"
      ++ rest
    /\ (rest = "" \/ exists lines, rest = newline ++ lines).
Proof.
  apply (@summary_headline Mock.builtins Mock.formats Mock.one_phase_report).
  reflexivity.
Defined.

(** The same report text, with a failed phase under a PASSED verdict: the
    headline is the host's word. *)
Example summary_verdict_is_the_hosts :
  @summary Mock.builtins Mock.formats
    {| all_passed := PBool true; phases_run := PInt 4;
       details := PList [PDict (mkdict [("phase", PStr "PostVerify");
                                        ("passed", PBool false)])] |} =
  Some ("Verification: PASSED (4 phases)" ++ newline
        ++ "  ✗ [PostVerify]  (0.0ms)").
Proof.
  reflexivity.
Qed.

(* ------------------------------------------------------------------ *)
(** ** What the client raises *)

Section Raises.
Context `{PyBuiltins}.
Variable host : host_model.

(** X19.  Whatever the host does, no exception of the transport's
    [ConnectionError] family leaves [_send]: a transport exception that
    comes out of it is outside that family, connection failures having
    been turned into the [RuntimeError]. *)
Theorem no_connection_error_escapes_send self cmd args h r :
  (_send host self cmd args h).1 = Raise (Requests r) ->
  isinstance_ConnectionError r = false.
Proof.
  unfold _send, try_except, session_put; run_M.
  destruct (host h (wire_request self cmd args)) as [r0|resp]; simpl.
  - destruct (isinstance_ConnectionError r0) eqn:C; simpl; intros [= <-].
    exact C.
  - unfold raise_for_status.
    destruct ((400 <=? status_code resp) && (status_code resp <? 600))%Z;
      simpl.
    + intros [= <-]. reflexivity.
    + unfold resp_json. destruct (json resp) as [body| |de]; simpl.
      * unfold decode_body.
        destruct body; simpl; try discriminate.
        destruct (default (PDict d) (d !! "ReturnValue")); simpl;
          try discriminate.
        destruct (json_loads s) as [v| |de]; try discriminate.
        destruct de; discriminate.
      * intros [= <-]. reflexivity.
      * destruct de; discriminate.
Qed.

Lemma _send_not_PermissionError self cmd args h msg :
  (_send host self cmd args h).1 <> Raise (PermissionError msg).
Proof.
  unfold _send, try_except, session_put; run_M.
  destruct (host h (wire_request self cmd args)) as [r|resp]; simpl.
  - destruct (isinstance_ConnectionError r); simpl; discriminate.
  - unfold raise_for_status.
    destruct ((400 <=? status_code resp) && (status_code resp <? 600))%Z;
      simpl; [discriminate|].
    unfold resp_json.
    destruct (json resp) as [body| |de]; simpl;
      [|discriminate|destruct de; discriminate].
    unfold decode_body. destruct body; simpl; try discriminate.
    destruct (default (PDict d) (d !! "ReturnValue")); simpl;
      try discriminate.
    destruct (json_loads s) as [v| |de]; try discriminate.
    destruct de; discriminate.
Qed.

Lemma execute_not_PermissionError self cmd args h msg :
  (execute host self cmd args h).1 <> Raise (PermissionError msg).
Proof.
  pose proof (_send_not_PermissionError self cmd args h msg) as N.
  unfold execute; run_M.
  destruct (_send host self cmd args h) as [[v|e] h']; simpl in *.
  - unfold from_response.
    destruct v; simpl; try discriminate.
    destruct (is_None (default PNone (d !! "error"))); simpl; discriminate.
  - intros [= ->]. apply N. reflexivity.
Qed.

(** X20.  [spawn_actor] raises [PermissionError] only on an explicit
    denial: [verify] is on, the check came back as a mapping whose
    ["allowed"] entry is present and false, the message carries that
    reply's violations, and nothing was sent after the check. *)
Theorem permission_error_only_on_denial
    self class_path x y z pitch yaw roll h msg :
  (spawn_actor host self class_path x y z pitch yaw roll h).1 =
    Raise (PermissionError msg) ->
  verify self = true
  /\ exists d a,
      (enforce_constitution host self ("spawn_actor " ++ class_path) h).1
        = Ok (PDict d)
      /\ d !! "allowed" = Some a
      /\ truthy a = false
      /\ msg = "Constitution blocked spawn_actor: "
               ++ py_str (default PNone (d !! "violations"))
      /\ (spawn_actor host self class_path x y z pitch yaw roll h).2 =
         (h ++ [wire_request self "enforce_constitution"
                  (PDict (mkdict [("action_description",
                                   PStr ("spawn_actor " ++ class_path))]))])%list.
Proof.
  intros E.
  destruct (verify self) eqn:Hv.
  - split; [reflexivity|].
    pose proof (_send_log host self "enforce_constitution"
      (PDict (mkdict [("action_description",
                       PStr ("spawn_actor " ++ class_path))])) h) as L.
    destruct (enforce_constitution host self ("spawn_actor " ++ class_path) h)
      as [[chk|e] h'] eqn:Hchk.
    + destruct chk;
        try (exfalso; revert E; unfold spawn_actor; rewrite Hv; run_M;
             rewrite Hchk; simpl; discriminate).
      rewrite (spawn_actor_verified host self class_path x y z pitch yaw roll
                 h d h' Hv Hchk) in E |- *.
      unfold enforce_constitution in Hchk. rewrite Hchk in L. simpl in L.
      destruct (d !! "allowed") as [a|] eqn:Ha; simpl in *.
      * destruct (truthy a) eqn:Ta.
        -- exfalso. exact (execute_not_PermissionError _ _ _ _ _ E).
        -- injection E as <-. exists d, a. subst h'. auto.
      * exfalso. exact (execute_not_PermissionError _ _ _ _ _ E).
    + exfalso. revert E. unfold spawn_actor. rewrite Hv. run_M.
      rewrite Hchk. simpl. intros [= ->].
      apply (_send_not_PermissionError self "enforce_constitution"
               (PDict (mkdict [("action_description",
                                PStr ("spawn_actor " ++ class_path))])) h msg).
      unfold enforce_constitution in Hchk. rewrite Hchk. reflexivity.
  - exfalso. rewrite spawn_actor_unverified in E by exact Hv.
    exact (execute_not_PermissionError _ _ _ _ _ E).
Qed.
End Raises.

(** A read timeout comes out as it is; it is no [ConnectionError]. *)
Lemma no_connection_error_escapes_send_witness :
  isinstance_ConnectionError ReadTimeout = false.
Proof.
  apply (@no_connection_error_escapes_send Mock.builtins
           (Mock.failing ReadTimeout) Mock.safe_client "ping" PNone []).
  reflexivity.
Defined.

Lemma permission_error_only_on_denial_witness :
  verify Mock.safe_client = true
  /\ exists d a,
      (@enforce_constitution Mock.builtins
         (Mock.scripted [Mock.reply Mock.denied]) Mock.safe_client
         ("spawn_actor " ++ "/Script/Engine.StaticMeshActor") []).1
        = Ok (PDict d)
      /\ d !! "allowed" = Some a
      /\ truthy a = false
      /\ "Constitution blocked spawn_actor: ['no spawning']" =
         "Constitution blocked spawn_actor: "
         ++ Mock.str (default PNone (d !! "violations"))
      /\ (Mock.spawn_origin (Mock.scripted [Mock.reply Mock.denied])
            Mock.safe_client []).2 =
         ([] ++ [Mock.check_request Mock.safe_client])%list.
Proof.
  apply (@permission_error_only_on_denial Mock.builtins
           (Mock.scripted [Mock.reply Mock.denied]) Mock.safe_client
           "/Script/Engine.StaticMeshActor"
           (PFloat (S754_zero false)) (PFloat (S754_zero false))
           (PFloat (S754_zero false)) (PFloat (S754_zero false))
           (PFloat (S754_zero false)) (PFloat (S754_zero false))
           [] "Constitution blocked spawn_actor: ['no spawning']").
  reflexivity.
Defined.

(** [NaN] is outside the JSON grammar and [json.loads] takes it: the
    caller gets the float, not [{"raw": "NaN"}]. *)
Example nan_text_is_decoded :
  (@_send Mock.builtins (Mock.scripted [Mock.reply (PStr "NaN")])
     Mock.safe_client "ping" PNone []).1 = Ok (PFloat S754_nan).
Proof.
  reflexivity.
Qed.
